(** * Milestone dependency and progress engine

    A shallow embedding of the goal/milestone logic of the learning-goal
    tracker:
    - [backend/src/models/Goal.js] (methods [updateProgress],
      [completeMilestone]),
    - [backend/src/routes/goals.js] (the handlers
      [PUT /api/goals/:id/milestones/:milestoneId] and
      [PUT /api/goals/:id/milestones/:milestoneId/dependencies]),
    - the goal details page (normalisation of stored goals,
      [persistMilestones], [isMilestoneBlocked], [toggleMilestone],
      [addDependency]).

    JavaScript numbers are IEEE 754 binary64 values.  The percentage
    [Math.round((completed / total) * 100)] is computed with one rounded
    division and one rounded multiplication, so the embedding carries a
    model of binary64 rounding on the rationals. *)

From Stdlib Require Import ZArith QArith Qround Qpower Qreduction.
From Stdlib Require Import Lia Lqa List Bool String DecimalString.
From Stdlib Require Import SpecFloat.
Import ListNotations.

Set Implicit Arguments.

(** ** JavaScript numbers *)

Module Number.

Local Open Scope Q_scope.

(** Nearest integer, ties to the even one: the rounding of the significand
    in the default IEEE 754 rounding mode. *)
Definition round_ties_even (x : Q) : Z :=
  let f := Qfloor x in
  match Qcompare (x - inject_Z f) (1 # 2) with
  | Lt => f
  | Gt => (f + 1)%Z
  | Eq => if Z.even f then f else (f + 1)%Z
  end.

(** The binade of a positive rational: the [e] with [2^e <= x < 2^(e+1)]. *)
Definition binade (x : Q) : Z :=
  let d := (Z.log2 (Qnum x) - Z.log2 (Zpos (Qden x)))%Z in
  if Qle_bool (2 ^ d) x then d else (d - 1)%Z.

(** A binary64 significand has 53 bits. *)
Definition prec : Z := 53.

(** Rounding of a positive rational to the binary64 grid of its binade. *)
Definition round_pos (x : Q) : Q :=
  let e := (binade x - (prec - 1))%Z in
  inject_Z (round_ties_even (x / 2 ^ e)) * 2 ^ e.

(** [fl x] is the binary64 value nearest to the exact result [x]
    (ties to even).  Every operand below is a list length or a product
    with [100], far from the overflow and subnormal ranges, which are
    therefore not modelled. *)
Definition fl (x : Q) : Q :=
  let r := Qred x in
  match Qnum r with
  | Z0 => 0
  | Zpos _ => round_pos r
  | Zneg _ => - round_pos (- r)
  end.

(** [a / b] and [a * b] on numbers; at every call site the divisor is a
    list length that was tested to be positive. *)
Definition div (a b : Q) : Q := fl (a / b).
Definition mul (a b : Q) : Q := fl (a * b).

(** [Math.round]: the nearest integer, ties towards plus infinity. *)
Definition Math_round (x : Q) : Z := Qfloor (x + (1 # 2)).

(** A list length as a number. *)
Definition of_nat (n : nat) : Q := inject_Z (Z.of_nat n).

(** The same expression on the binary64 operations of the standard
    library's [SpecFloat], against which the model above is checked. *)
Definition binary64_of_Z (z : Z) : spec_float :=
  binary_normalize 53 1024 z 0 false.

Definition SF2Q (f : spec_float) : Q :=
  match f with
  | S754_finite s m e => (if s then - (1) else 1) * inject_Z (Zpos m) * 2 ^ e
  | _ => 0
  end.

Definition binary64_ratio_times_100 (completed total : nat) : spec_float :=
  SFmul 53 1024
    (SFdiv 53 1024
       (binary64_of_Z (Z.of_nat completed)) (binary64_of_Z (Z.of_nat total)))
    (binary64_of_Z 100).

Definition agrees_with_binary64 (completed total : nat) : bool :=
  Qeq_bool (mul (div (of_nat completed) (of_nat total)) 100)
    (SF2Q (binary64_ratio_times_100 completed total)).

(** [Math.round((completed / total) * 100)], the expression shared by
    [updateProgress], [persistMilestones] and [toggleMilestone]. *)
Definition percentage (completed total : nat) : Z :=
  Math_round (mul (div (of_nat completed) (of_nat total)) 100).

End Number.

(** ** The goal model ([backend/src/models/Goal.js]) *)

Module GoalModel.

Import Number.

(** [status] enum of [goalSchema]. *)
Inductive Status : Type :=
| planning | active | paused | completed | cancelled.

Definition Status_eqb (a b : Status) : bool :=
  match a, b with
  | planning, planning | active, active | paused, paused
  | completed, completed | cancelled, cancelled => true
  | _, _ => false
  end.

(** [milestoneSchema]: the fields read or written by the engine.  Ids are
    the string form of the document ids; dates are millisecond stamps. *)
Record Milestone : Type := mkMilestone {
  _id : string;
  title : string;
  order : Z;
  dependencies : list string;
  isCompleted : bool;
  completedAt : option Z
}.

(** [goalSchema]: the fields read or written by the engine.  [progress]
    is only ever written by [updateProgress] (with the result of
    [Math.round]) and is never read before it is overwritten. *)
Record Goal : Type := mkGoal {
  status : Status;
  progress : Z;
  milestones : list Milestone;
  completedMilestones : nat;
  actualDuration_completedAt : option Z
}.

(** What [updateProgress] stores in [progress] for a list of milestones. *)
Definition derived_progress (ms : list Milestone) : Z :=
  if (0 <? List.length ms)%nat
  then percentage (List.length (filter isCompleted ms)) (List.length ms)
  else 0%Z.

(** [goalSchema.methods.updateProgress]; [now] is the value of
    [new Date()], and [this.save()] is the returned document. *)
Definition updateProgress (now : Z) (this : Goal) : Goal :=
  let completedMilestones' := List.length (filter isCompleted (milestones this)) in
  let progress' := derived_progress (milestones this) in
  if (progress' =? 100)%Z && negb (Status_eqb (status this) completed) then
    {| status := completed;
       progress := progress';
       milestones := milestones this;
       completedMilestones := completedMilestones';
       actualDuration_completedAt := Some now |}
  else if (0 <? progress')%Z && Status_eqb (status this) planning then
    {| status := active;
       progress := progress';
       milestones := milestones this;
       completedMilestones := completedMilestones';
       actualDuration_completedAt := actualDuration_completedAt this |}
  else
    {| status := status this;
       progress := progress';
       milestones := milestones this;
       completedMilestones := completedMilestones';
       actualDuration_completedAt := actualDuration_completedAt this |}.

(** [this.milestones.id(i)]: the sub-document with that id. *)
Definition milestones_id (ms : list Milestone) (i : string) : option Milestone :=
  find (fun m => String.eqb (_id m) i) ms.

(** In-place update of the sub-document that [milestones_id] returns. *)
Fixpoint update_id (f : Milestone -> Milestone) (i : string)
    (ms : list Milestone) : list Milestone :=
  match ms with
  | [] => []
  | m :: rest =>
      if String.eqb (_id m) i then f m :: rest
      else m :: update_id f i rest
  end.

Definition set_milestones (ms : list Milestone) (g : Goal) : Goal :=
  {| status := status g;
     progress := progress g;
     milestones := ms;
     completedMilestones := completedMilestones g;
     actualDuration_completedAt := actualDuration_completedAt g |}.

Definition mark_completed (now : Z) (m : Milestone) : Milestone :=
  {| _id := _id m;
     title := title m;
     order := order m;
     dependencies := dependencies m;
     isCompleted := true;
     completedAt := Some now |}.

(** [goalSchema.methods.completeMilestone]: [inr] is the thrown
    [Error('Milestone not found')]. *)
Definition completeMilestone (now : Z) (milestoneId : string) (this : Goal)
  : Goal + string :=
  match milestones_id (milestones this) milestoneId with
  | Some _ =>
      inl (updateProgress now
             (set_milestones
                (update_id (mark_completed now) milestoneId (milestones this))
                this))
  | None => inr "Milestone not found"%string
  end.

(** Virtual [totalMilestones]. *)
Definition totalMilestones (this : Goal) : nat := List.length (milestones this).

(** Virtual [completionPercentage], computed from the stored count. *)
Definition completionPercentage (this : Goal) : Z :=
  if (List.length (milestones this) =? 0)%nat then 0%Z
  else percentage (completedMilestones this) (List.length (milestones this)).

Definition set_order (o : Z) (m : Milestone) : Milestone :=
  {| _id := _id m;
     title := title m;
     order := o;
     dependencies := dependencies m;
     isCompleted := isCompleted m;
     completedAt := completedAt m |}.

(** [goalSchema.methods.addMilestone]; [milestoneData] is the pushed
    sub-document with the id it is given. *)
Definition addMilestone (milestoneData : Milestone) (this : Goal) : Goal :=
  let order' := Z.of_nat (List.length (milestones this)) in
  set_milestones (milestones this ++ [set_order order' milestoneData]) this.

End GoalModel.

(** ** The goal routes ([backend/src/routes/goals.js]) *)

Module GoalRoutes.

Import GoalModel.
Local Open Scope string_scope.

(** [res.status(code).json({ success, message, data })]. *)
Record Response (A : Type) : Type := mkResponse {
  code : Z;
  success : bool;
  message : string;
  data : option A
}.

Definition failure {A : Type} (c : Z) (msg : string) : Response A :=
  {| code := c; success := false; message := msg; data := None |}.

Definition ok {A : Type} (msg : string) (d : A) : Response A :=
  {| code := 200; success := true; message := msg; data := Some d |}.

(** [depMilestone?.title || depId]. *)
Definition unmet_label (depMilestone : option Milestone) (depId : string) : string :=
  match depMilestone with
  | Some d => if String.eqb (title d) "" then depId else title d
  | None => depId
  end.

(** [!depMilestone || !depMilestone.isCompleted]. *)
Definition dependency_unmet (goal : Goal) (depId : string) : bool :=
  match milestones_id (milestones goal) depId with
  | Some depMilestone => negb (isCompleted depMilestone)
  | None => true
  end.

(** The loop that fills [unmetDependencies]. *)
Fixpoint unmetDependencies (goal : Goal) (deps : list string) : list string :=
  match deps with
  | [] => []
  | depId :: rest =>
      if dependency_unmet goal depId
      then unmet_label (milestones_id (milestones goal) depId) depId
             :: unmetDependencies goal rest
      else unmetDependencies goal rest
  end.

(** [PUT /api/goals/:id/milestones/:milestoneId], once [Goal.findOne]
    has returned [goal].  The result is the stored goal after the request
    and the response.  The progress-ledger entry written after a
    successful completion belongs to the [Progress] collection and is not
    part of the goal. *)
Definition put_milestone (now : Z) (milestoneId : string) (goal : Goal)
  : Goal * Response Goal :=
  match milestones_id (milestones goal) milestoneId with
  | None => (goal, failure 404 "Milestone not found")
  | Some milestone =>
      if isCompleted milestone
      then (goal, failure 400 "Milestone is already completed")
      else
        let unmet := unmetDependencies goal (dependencies milestone) in
        if (0 <? List.length unmet)%nat
        then (goal,
              failure 400
                ("Cannot complete milestone. Unmet dependencies: "
                   ++ String.concat ", " unmet))
        else
          match completeMilestone now milestoneId goal with
          | inl goal' => (goal', ok "Milestone completed successfully" goal')
          | inr error_message => (goal, failure 400 error_message)
          end
  end.

(** The loop that fills [validDependencies]. *)
Definition validDependencies (goal : Goal) (milestoneId : string)
    (deps : list string) : list string :=
  filter
    (fun depId =>
       match milestones_id (milestones goal) depId with
       | Some _ => negb (String.eqb depId milestoneId)
       | None => false
       end)
    deps.

Definition set_dependencies (deps : list string) (m : Milestone) : Milestone :=
  {| _id := _id m;
     title := title m;
     order := order m;
     dependencies := deps;
     isCompleted := isCompleted m;
     completedAt := completedAt m |}.

(** [PUT /api/goals/:id/milestones/:milestoneId/dependencies], once the
    request body has passed validation (an array of ids) and
    [Goal.findOne] has returned [goal]. *)
Definition put_dependencies (milestoneId : string) (deps : list string)
    (goal : Goal) : Goal * Response Milestone :=
  match milestones_id (milestones goal) milestoneId with
  | None => (goal, failure 404 "Milestone not found")
  | Some milestone =>
      let valid := validDependencies goal milestoneId deps in
      (set_milestones
         (update_id (set_dependencies valid) milestoneId (milestones goal))
         goal,
       ok "Dependencies updated successfully" (set_dependencies valid milestone))
  end.

End GoalRoutes.

(** ** The goal details page *)

Module GoalDetailsPage.

Import Number.
Local Open Scope string_scope.

(** Values read back from [JSON.parse]; [JUndefined] is a missing
    property. *)
#[local] Unset Elimination Schemes.
Inductive jsval : Type :=
| JUndefined
| JNull
| JBool (b : bool)
| JNum (n : Q)
| JStr (s : string)
| JArr (items : list jsval)
| JObj (fields : list (string * jsval)).
#[local] Set Elimination Schemes.

(** Truthiness, as used by [||], [&&] and [filter]. *)
Definition truthy (v : jsval) : bool :=
  match v with
  | JUndefined | JNull => false
  | JBool b => b
  | JNum n => negb (Qeq_bool n 0)
  | JStr s => negb (String.eqb s "")
  | JArr _ | JObj _ => true
  end.

(** [a || b] on values. *)
Definition js_or (a b : jsval) : jsval := if truthy a then a else b.

(** [v.key] for a value that is not [null] or [undefined]. *)
Definition prop (v : jsval) (key : string) : jsval :=
  match v with
  | JObj fields =>
      match find (fun kv => String.eqb (fst kv) key) fields with
      | Some kv => snd kv
      | None => JUndefined
      end
  | _ => JUndefined
  end.

(** [interface Milestone], the fields the page logic reads or writes. *)
Record Milestone : Type := mkMilestone {
  id : string;
  title : string;
  isCompleted : bool;
  dependencies : list string;
  order : Z
}.

(** An entry of the stored [goals] array.  [key] is
    [String(g?.id || g?._id)]; the other fields are whatever the stored
    object holds. *)
Record StoredGoal : Type := mkStoredGoal {
  key : string;
  stored_title : jsval;
  stored_description : jsval;
  stored_milestones : jsval;
  stored_completedMilestones : jsval;
  stored_progress : jsval;
  stored_status : jsval
}.

(** [interface Goal], the in-page goal (without [id], [timeline] and
    [createdAt], which fall back on the clock). *)
Record Goal : Type := mkGoal {
  goal_title : jsval;
  description : jsval;
  progress : Q;
  status : jsval;
  milestones : Q;
  completedMilestones : Q
}.

(** The [status] union of [interface Goal]. *)
Definition allowed_status (v : jsval) : Prop :=
  v = JStr "active" \/ v = JStr "completed" \/ v = JStr "paused".

(** The body of [storedArray.map((g: any) => ...)] in the load effect. *)
Definition normalize (g : StoredGoal) : Goal :=
  let milestonesCount :=
    match stored_milestones g with
    | JArr items => of_nat (List.length items)
    | JNum n => n
    | _ => 0%Q
    end in
  let completedMilestonesCount :=
    match stored_milestones g with
    | JArr items =>
        of_nat
          (List.length
             (filter
                (fun m =>
                   truthy m
                   && (truthy (prop m "isCompleted") || truthy (prop m "completed")))
                items))
    | _ =>
        match stored_completedMilestones g with
        | JNum n => n
        | _ => 0%Q
        end
    end in
  {| goal_title := js_or (stored_title g) (JStr "Untitled Goal");
     description := js_or (stored_description g) (JStr "");
     progress :=
       match stored_progress g with
       | JNum n => n
       | _ => 0%Q
       end;
     status :=
       if existsb
            (fun allowed =>
               match stored_status g with
               | JStr s => String.eqb allowed s
               | _ => false
               end)
            ["active"; "completed"; "paused"]
       then stored_status g
       else JStr "active";
     milestones := milestonesCount;
     completedMilestones := completedMilestonesCount |}.

(** A milestone as [JSON.stringify] writes it. *)
Definition to_json (m : Milestone) : jsval :=
  JObj [("id", JStr (id m));
        ("title", JStr (title m));
        ("isCompleted", JBool (isCompleted m));
        ("dependencies", JArr (map JStr (dependencies m)));
        ("order", JNum (inject_Z (order m)))].

(** The progress written by [persistMilestones] and by the [setGoal]
    updater of [toggleMilestone]; [fallback] is what is kept for an empty
    list. *)
Definition list_progress {A : Type} (updated : list Milestone) (fallback : A)
    (of_percentage : Z -> A) : A :=
  if (0 <? List.length updated)%nat
  then of_percentage
         (percentage (List.length (filter isCompleted updated))
            (List.length updated))
  else fallback.

(** [persistMilestones], on the parsed [goals] array. *)
Definition persistMilestones (goalId : string) (updatedList : list Milestone)
    (stored : list StoredGoal) : list StoredGoal :=
  map
    (fun g =>
       if negb (String.eqb (key g) goalId) then g
       else
         {| key := key g;
            stored_title := stored_title g;
            stored_description := stored_description g;
            stored_milestones := JArr (map to_json updatedList);
            stored_completedMilestones := stored_completedMilestones g;
            stored_progress :=
              list_progress updatedList
                (js_or (stored_progress g) (JNum 0))
                (fun p => JNum (inject_Z p));
            stored_status := stored_status g |})
    stored.

(** [isMilestoneBlocked]. *)
Definition isMilestoneBlocked (milestoneList : list Milestone)
    (milestone : Milestone) : bool :=
  if isCompleted milestone then false
  else
    existsb
      (fun depId =>
         match find (fun m => String.eqb (id m) depId) milestoneList with
         | Some depMilestone => negb (isCompleted depMilestone)
         | None => false
         end)
      (dependencies milestone).

(** The component state together with the stored [goals] array. *)
Record Page : Type := mkPage {
  goalId : string;
  goal : option Goal;
  milestoneList : list Milestone;
  storage : list StoredGoal
}.

(** What a handler does besides updating the state. *)
Inductive Effect : Type :=
| alert (text : string)
| addProgressEntry (milestoneId : string) (description : string).

Definition toggle (m : Milestone) : Milestone :=
  {| id := id m;
     title := title m;
     isCompleted := negb (isCompleted m);
     dependencies := dependencies m;
     order := order m |}.

(** [updated[index] = ...] on a copy of the list. *)
Fixpoint set_nth (index : nat) (f : Milestone -> Milestone)
    (l : list Milestone) : list Milestone :=
  match l, index with
  | [], _ => []
  | m :: rest, O => f m :: rest
  | m :: rest, S i => m :: set_nth i f rest
  end.

(** [toggleMilestone]; [None] is the [TypeError] of reading
    [milestoneList[index].isCompleted] past the end of the list. *)
Definition toggleMilestone (index : nat) (page : Page)
  : option (Page * list Effect) :=
  match nth_error (milestoneList page) index with
  | None => None
  | Some milestone =>
      if negb (isCompleted milestone)
         && isMilestoneBlocked (milestoneList page) milestone
      then
        Some (page,
              [alert "Cannot complete this milestone. Please complete its dependencies first."])
      else
        let updated := set_nth index toggle (milestoneList page) in
        let wasCompleted := isCompleted milestone in
        Some
          ({| goalId := goalId page;
              goal :=
                option_map
                  (fun g =>
                     {| goal_title := goal_title g;
                        description := description g;
                        progress :=
                          list_progress updated (progress g) inject_Z;
                        status := status g;
                        milestones := of_nat (List.length updated);
                        completedMilestones :=
                          of_nat (List.length (filter isCompleted updated)) |})
                  (goal page);
              milestoneList := updated;
              storage := persistMilestones (goalId page) updated (storage page) |},
           if negb wasCompleted
           then [addProgressEntry (id milestone)
                   ("Completed milestone: " ++ title milestone)]
           else [])
  end.

(** [addDependency]. *)
Definition addDependency (milestoneId dependencyId : string) (page : Page)
  : Page :=
  let updated :=
    map
      (fun m =>
         if String.eqb (id m) milestoneId
         then {| id := id m;
                 title := title m;
                 isCompleted := isCompleted m;
                 dependencies := dependencies m ++ [dependencyId];
                 order := order m |}
         else m)
      (milestoneList page) in
  {| goalId := goalId page;
     goal := goal page;
     milestoneList := updated;
     storage := persistMilestones (goalId page) updated (storage page) |}.

(** [removeDependency]. *)
Definition removeDependency (milestoneId dependencyId : string) (page : Page)
  : Page :=
  let updated :=
    map
      (fun m =>
         if String.eqb (id m) milestoneId
         then {| id := id m;
                 title := title m;
                 isCompleted := isCompleted m;
                 dependencies :=
                   filter (fun dep => negb (String.eqb dep dependencyId))
                     (dependencies m);
                 order := order m |}
         else m)
      (milestoneList page) in
  {| goalId := goalId page;
     goal := goal page;
     milestoneList := updated;
     storage := persistMilestones (goalId page) updated (storage page) |}.

(** The array that [deleteGoal] writes back; the navigation to the
    dashboard that follows is not part of the state. *)
Definition deleteGoal (page : Page) : list StoredGoal :=
  filter (fun g => negb (String.eqb (key g) (goalId page))) (storage page).

End GoalDetailsPage.

(** ** The specification's progress formula *)

Module Spec.

Import Number.
Local Open Scope Q_scope.

(** Round half up, on the exact rational. *)
Definition round_half_up (x : Q) : Z := Qfloor (x + (1 # 2)).

(** [total == 0 ? 0 : round(100 * completedCount / total)]. *)
Definition progress_formula (completedCount total : nat) : Z :=
  if (total =? 0)%nat then 0%Z
  else round_half_up (100 * of_nat completedCount / of_nat total).

End Spec.

(** ** Sample goals and call sequences *)

Module Scenarios.

Import GoalModel.
Local Open Scope string_scope.

Definition milestone_name (i : nat) : string :=
  "m" ++ NilEmpty.string_of_uint (Nat.to_uint i).

(** Milestone number [i] of a goal whose first [k] milestones are done. *)
Definition sample_milestone (k i : nat) : Milestone :=
  {| _id := milestone_name i;
     title := "Milestone " ++ NilEmpty.string_of_uint (Nat.to_uint i);
     order := Z.of_nat i;
     dependencies := [];
     isCompleted := (i <? k)%nat;
     completedAt := if (i <? k)%nat then Some 0%Z else None |}.

(** A goal with [n] independent milestones, the first [k] completed,
    whose stored progress and count are those of its creation. *)
Definition sample_goal (s : Status) (k n : nat) : Goal :=
  {| status := s;
     progress := 0;
     milestones := map (sample_milestone k) (seq 0 n);
     completedMilestones := 0;
     actualDuration_completedAt := None |}.

(** One [completeMilestone] call; a thrown error leaves the stored goal
    as it was. *)
Definition complete_call (g : Goal) (call : Z * string) : Goal :=
  match completeMilestone (fst call) (snd call) g with
  | inl g' => g'
  | inr _ => g
  end.

(** A sequence of successive [completeMilestone] calls. *)
Definition complete_calls (calls : list (Z * string)) (g : Goal) : Goal :=
  fold_left complete_call calls g.

(** A recomputation after the milestones were replaced by [fst change]
    at time [snd change]. *)
Definition recompute_after (g : Goal) (change : list Milestone * Z) : Goal :=
  updateProgress (snd change) (set_milestones (fst change) g).

(** A chain A, B (needs A), C (needs B). *)
Definition chain_milestone (name : string) (deps : list string) (done : bool)
  : Milestone :=
  {| _id := name;
     title := "Step " ++ name;
     order := 0;
     dependencies := deps;
     isCompleted := done;
     completedAt := if done then Some 0%Z else None |}.

Definition chain_goal (a_done b_done c_done : bool) : Goal :=
  {| status := active;
     progress := 0;
     milestones :=
       [chain_milestone "A" [] a_done;
        chain_milestone "B" ["A"] b_done;
        chain_milestone "C" ["B"] c_done];
     completedMilestones := 0;
     actualDuration_completedAt := None |}.

End Scenarios.

(** ** Sample pages *)

Module PageScenarios.

Import GoalDetailsPage.
Local Open Scope string_scope.

(** An incomplete milestone whose only dependency names no milestone. *)
Definition orphan : Milestone :=
  {| id := "m1";
     title := "Write tests";
     isCompleted := false;
     dependencies := ["ghost"];
     order := 0 |}.

Definition orphan_page : Page :=
  {| goalId := "g1";
     goal :=
       Some {| goal_title := JStr "Testing";
               description := JStr "";
               progress := 0;
               status := JStr "active";
               milestones := 1;
               completedMilestones := 0 |};
     milestoneList := [orphan];
     storage :=
       [{| key := "g1";
           stored_title := JStr "Testing";
           stored_description := JUndefined;
           stored_milestones := JArr [to_json orphan];
           stored_completedMilestones := JUndefined;
           stored_progress := JNum 0;
           stored_status := JStr "active" |}] |}.

(** The same milestone as a document of the goal model. *)
Definition orphan_goal : GoalModel.Goal :=
  {| GoalModel.status := GoalModel.active;
     GoalModel.progress := 0;
     GoalModel.milestones :=
       [{| GoalModel._id := "m1";
           GoalModel.title := "Write tests";
           GoalModel.order := 0;
           GoalModel.dependencies := ["ghost"];
           GoalModel.isCompleted := false;
           GoalModel.completedAt := None |}];
     GoalModel.completedMilestones := 0;
     GoalModel.actualDuration_completedAt := None |}.

(** A stored goal created elsewhere, with a status of the full enum and a
    progress written as text. *)
Definition planning_record : StoredGoal :=
  {| key := "g2";
     stored_title := JStr "Learn Rust";
     stored_description := JUndefined;
     stored_milestones := JNum 4;
     stored_completedMilestones := JNum 1;
     stored_progress := JStr "25";
     stored_status := JStr "planning" |}.

(** The page after the orphan was toggled. *)
Definition toggled_orphan_page : Page :=
  match toggleMilestone 0 orphan_page with
  | Some r => fst r
  | None => orphan_page
  end.

End PageScenarios.

(** ** The static milestone plan *)

Module Breakdown.

Import Number.
Local Open Scope string_scope.

(** [type] enum of [milestoneSchema]. *)
Inductive MilestoneType : Type :=
| theory | practice | project | assessment.

(** An element of the array returned by
    [generateMilestonesFromBreakdown]. *)
Record Plan : Type := mkPlan {
  title : string;
  description : string;
  type : MilestoneType;
  estimatedDuration : Z;
  order : nat;
  learningObjectives : list string;
  assessmentCriteria : list string
}.

(** The body of [skills.forEach((skill, index) => ...)]; [count] is
    [skills.length]. *)
Definition plan_for (count : nat) (index : nat) (skill : string) : Plan :=
  {| title := "Learn " ++ skill;
     description :=
       "Master the fundamentals of " ++ skill ++ " and apply it practically";
     type :=
       if Qlt_le_dec (of_nat index) (div (of_nat count) 2)
       then theory else practice;
     estimatedDuration :=
       Z.max 8 (Qfloor (div 168 (inject_Z (Z.max 1 (Z.of_nat count)))));
     order := index;
     learningObjectives :=
       ["Understand " ++ skill ++ " concepts";
        "Apply " ++ skill ++ " in practice";
        "Build " ++ skill ++ " project"];
     assessmentCriteria :=
       ["Complete " ++ skill ++ " exercises";
        "Build " ++ skill ++ " project";
        "Pass " ++ skill ++ " assessment"] |}.

(** [forEach] with its index. *)
Fixpoint forEach_from {A B : Type} (f : nat -> A -> B) (index : nat)
    (l : list A) : list B :=
  match l with
  | [] => []
  | a :: rest => f index a :: forEach_from f (S index) rest
  end.

(** The static fallback of [generateMilestonesFromBreakdown], taken when
    no model service answers; [skills] is [breakdown.keySkills || []]. *)
Definition generateMilestonesFromBreakdown (skills : list string) : list Plan :=
  forEach_from (plan_for (List.length skills)) 0 skills.

End Breakdown.

(** ** Request sequences and invariants of the routes *)

Module Invariants.

Import GoalModel GoalRoutes.

(** A sequence of completion requests on one goal. *)
Definition put_milestone_calls (calls : list (Z * string)) (g : Goal) : Goal :=
  fold_left (fun g call => fst (put_milestone (fst call) (snd call) g)) calls g.

(** Every completed milestone has all its dependencies completed. *)
Definition dependency_closed (g : Goal) : Prop :=
  forall m depId,
    In m (milestones g) -> isCompleted m = true ->
    In depId (dependencies m) -> dependency_unmet g depId = false.

(** The milestones named in [ids] are all open and each of them depends
    on one named in [ids]. *)
Definition stuck (ids : list string) (g : Goal) : Prop :=
  forall m,
    In m (milestones g) -> In (_id m) ids ->
    isCompleted m = false
    /\ exists depId, In depId (dependencies m) /\ In depId ids.

(** A goal whose milestones are all completed is stored as completed
    with progress 100. *)
Definition settled (g : Goal) : Prop :=
  milestones g <> [] -> forallb isCompleted (milestones g) = true ->
  status g = completed /\ progress g = 100%Z.

(** The [order] of every milestone is its position. *)
Definition ordered_by_position (g : Goal) : Prop :=
  map order (milestones g)
  = map Z.of_nat (seq 0 (List.length (milestones g))).

End Invariants.

(** * Properties *)

(** ** Rounding to binary64 is monotone *)

Module NumberFacts.

Import Number.
Local Open Scope Q_scope.

Lemma pow2_pos (e : Z) : 0 < 2 ^ e.
Proof. apply Qpower_0_lt. reflexivity. Qed.

Lemma pow2_plus (a b : Z) : 2 ^ (a + b) == 2 ^ a * 2 ^ b.
Proof. apply Qpower_plus. discriminate. Qed.

Lemma pow2_le (a b : Z) : (a <= b)%Z -> 2 ^ a <= 2 ^ b.
Proof. intros H. apply Qpower_le_compat_l; [exact H | discriminate]. Qed.

Lemma pow2_inject (n : Z) : (0 <= n)%Z -> inject_Z (2 ^ n) == 2 ^ n.
Proof. intros H. rewrite Zpower_Qpower by exact H. reflexivity. Qed.

(** [round_ties_even] *)

Lemma round_ties_even_bounds (x : Q) :
  (Qfloor x <= round_ties_even x <= Qfloor x + 1)%Z.
Proof.
  unfold round_ties_even.
  destruct (Qcompare _ _); [destruct (Z.even _) | |]; lia.
Qed.

Lemma round_ties_even_Z (z : Z) : round_ties_even (inject_Z z) = z.
Proof.
  unfold round_ties_even. rewrite Qfloor_Z.
  assert (H : inject_Z z - inject_Z z == 0) by ring.
  rewrite H. reflexivity.
Qed.

Lemma round_ties_even_mono (x y : Q) :
  x <= y -> (round_ties_even x <= round_ties_even y)%Z.
Proof.
  intros Hxy.
  pose proof (Qfloor_resp_le _ _ Hxy) as Hf.
  pose proof (round_ties_even_bounds x) as Bx.
  pose proof (round_ties_even_bounds y) as By.
  destruct (Z.eq_dec (Qfloor x) (Qfloor y)) as [E | NE]; [| lia].
  unfold round_ties_even in *. rewrite <- E in *.
  destruct (Qcompare_spec (x - inject_Z (Qfloor x)) (1 # 2)) as [Hx | Hx | Hx];
    destruct (Qcompare_spec (y - inject_Z (Qfloor x)) (1 # 2)) as [Hy | Hy | Hy];
    try (destruct (Z.even (Qfloor x))); try lia; exfalso; lra.
Qed.

Lemma round_ties_even_ge (z : Z) (x : Q) :
  inject_Z z <= x -> (z <= round_ties_even x)%Z.
Proof.
  intros H. rewrite <- (round_ties_even_Z z). now apply round_ties_even_mono.
Qed.

Lemma round_ties_even_le (z : Z) (x : Q) :
  x <= inject_Z z -> (round_ties_even x <= z)%Z.
Proof.
  intros H. rewrite <- (round_ties_even_Z z). now apply round_ties_even_mono.
Qed.

(** [binade] *)

Lemma log2_bounds (a : Z) :
  (0 < a)%Z -> 2 ^ Z.log2 a <= inject_Z a /\ inject_Z a < 2 ^ (Z.log2 a + 1).
Proof.
  intros Ha. destruct (Z.log2_spec a Ha) as [Hl Hu].
  pose proof (Z.log2_nonneg a) as Hn.
  rewrite <- !pow2_inject by lia.
  rewrite <- Zle_Qle, <- Zlt_Qlt. change (Z.succ (Z.log2 a)) with (Z.log2 a + 1)%Z in Hu.
  split; assumption.
Qed.

Lemma binade_spec (x : Q) :
  0 < x -> 2 ^ binade x <= x /\ x < 2 ^ (binade x + 1).
Proof.
  intros Hx. destruct x as [a b].
  assert (Ha : (0 < a)%Z).
  { unfold Qlt in Hx. simpl in Hx. lia. }
  destruct (log2_bounds Ha) as [Hal Hau].
  destruct (@log2_bounds (Zpos b) eq_refl) as [Hbl Hbu].
  unfold binade. cbn [Qnum Qden].
  set (la := Z.log2 a) in *. set (lb := Z.log2 (Zpos b)) in *.
  assert (Hb : 0 < inject_Z (Zpos b)) by reflexivity.
  assert (Hq : a # b == inject_Z a / inject_Z (Zpos b)) by apply Qmake_Qdiv.
  assert (Hup : a # b < 2 ^ (la - lb + 1)).
  { rewrite Hq. apply Qlt_shift_div_r; [exact Hb |].
    eapply Qlt_le_trans; [exact Hau |].
    replace (la + 1)%Z with ((la - lb + 1) + lb)%Z by ring.
    rewrite pow2_plus. apply Qmult_le_l; [apply pow2_pos | exact Hbl]. }
  assert (Hlo : 2 ^ (la - lb - 1) <= a # b).
  { rewrite Hq. apply Qle_shift_div_l; [exact Hb |].
    eapply Qle_trans; [| exact Hal].
    replace la with ((la - lb - 1) + (lb + 1))%Z at 2 by ring.
    rewrite pow2_plus. apply Qmult_le_l; [apply pow2_pos |].
    apply Qlt_le_weak. exact Hbu. }
  destruct (Qle_bool (2 ^ (la - lb)) (a # b)) eqn:E.
  - apply Qle_bool_iff in E. split; assumption.
  - split; [exact Hlo |].
    replace (la - lb - 1 + 1)%Z with (la - lb)%Z by ring.
    apply Qnot_le_lt. intros H. apply Qle_bool_iff in H. congruence.
Qed.

Lemma binade_mono (x y : Q) : 0 < x -> x <= y -> (binade x <= binade y)%Z.
Proof.
  intros Hx Hxy.
  assert (Hy : 0 < y) by (eapply Qlt_le_trans; eauto).
  destruct (binade_spec Hx) as [Hxl _].
  destruct (binade_spec Hy) as [_ Hyu].
  destruct (Z_lt_le_dec (binade y) (binade x)) as [H | H]; [exfalso | exact H].
  assert (Hp : 2 ^ (binade y + 1) <= 2 ^ binade x) by (apply pow2_le; lia).
  lra.
Qed.

(** [round_pos] *)

Lemma scaled_bounds (x : Q) :
  0 < x ->
  inject_Z (2 ^ (prec - 1)) <= x / 2 ^ (binade x - (prec - 1))
  /\ x / 2 ^ (binade x - (prec - 1)) <= inject_Z (2 ^ prec).
Proof.
  intros Hx. destruct (binade_spec Hx) as [Hl Hu].
  set (b := binade x) in *. set (e := (b - (prec - 1))%Z).
  pose proof (pow2_pos e) as He.
  rewrite !pow2_inject by (unfold prec; lia).
  split.
  - apply Qle_shift_div_l; [exact He |].
    rewrite <- pow2_plus. replace (prec - 1 + e)%Z with b by (unfold e; ring).
    exact Hl.
  - apply Qle_shift_div_r; [exact He |].
    rewrite <- pow2_plus. replace (prec + e)%Z with (b + 1)%Z by (unfold e; ring).
    apply Qlt_le_weak. exact Hu.
Qed.

Lemma round_pos_bounds (x : Q) :
  0 < x -> 2 ^ binade x <= round_pos x /\ round_pos x <= 2 ^ (binade x + 1).
Proof.
  intros Hx. destruct (scaled_bounds Hx) as [Hl Hu].
  unfold round_pos.
  set (e := (binade x - (prec - 1))%Z) in *.
  pose proof (pow2_pos e) as He.
  apply round_ties_even_ge in Hl. apply round_ties_even_le in Hu.
  rewrite Zle_Qle in Hl, Hu.
  rewrite !pow2_inject in Hl, Hu by (unfold prec; lia).
  split.
  - replace (binade x) with ((prec - 1) + e)%Z at 1 by (unfold e; ring).
    rewrite pow2_plus. apply Qmult_le_compat_r; [exact Hl | lra].
  - replace (binade x + 1)%Z with (prec + e)%Z by (unfold e; ring).
    rewrite pow2_plus. apply Qmult_le_compat_r; [exact Hu | lra].
Qed.

Lemma round_pos_mono (x y : Q) :
  0 < x -> x <= y -> round_pos x <= round_pos y.
Proof.
  intros Hx Hxy.
  assert (Hy : 0 < y) by (eapply Qlt_le_trans; eauto).
  pose proof (binade_mono Hx Hxy) as Hb.
  destruct (Z.eq_dec (binade x) (binade y)) as [E | NE].
  - unfold round_pos. rewrite E.
    set (e := (binade y - (prec - 1))%Z).
    pose proof (pow2_pos e) as He.
    apply Qmult_le_compat_r; [| lra].
    rewrite <- Zle_Qle. apply round_ties_even_mono.
    apply Qmult_le_compat_r; [exact Hxy |].
    apply Qlt_le_weak. apply Qinv_lt_0_compat. exact He.
  - destruct (round_pos_bounds Hx) as [_ Hu].
    destruct (round_pos_bounds Hy) as [Hl _].
    assert (Hp : 2 ^ (binade x + 1) <= 2 ^ binade y) by (apply pow2_le; lia).
    lra.
Qed.

(** [fl] *)

Lemma fl_comp (x y : Q) : x == y -> fl x = fl y.
Proof. intros H. unfold fl. now rewrite (Qred_complete _ _ H). Qed.

Lemma Qnum_sign (x : Q) :
  match Qnum x with
  | Z0 => x == 0
  | Zpos _ => 0 < x
  | Zneg _ => x < 0
  end.
Proof. destruct x as [[| p | p] d]; unfold Qeq, Qlt; simpl; lia. Qed.

Lemma fl_nonneg (x : Q) : 0 <= x -> 0 <= fl x.
Proof.
  intros Hx. unfold fl.
  pose proof (Qnum_sign (Qred x)) as Hs. pose proof (Qred_correct x) as Hr.
  destruct (Qnum (Qred x)).
  - lra.
  - destruct (round_pos_bounds Hs) as [Hl _].
    pose proof (pow2_pos (binade (Qred x))). lra.
  - lra.
Qed.

Lemma fl_mono (x y : Q) : 0 <= x -> x <= y -> fl x <= fl y.
Proof.
  intros Hx Hxy.
  assert (Hy : 0 <= fl y) by (apply fl_nonneg; lra).
  unfold fl in *.
  pose proof (Qnum_sign (Qred x)) as Hsx. pose proof (Qred_correct x) as Hrx.
  pose proof (Qnum_sign (Qred y)) as Hsy. pose proof (Qred_correct y) as Hry.
  destruct (Qnum (Qred x)).
  - exact Hy.
  - destruct (Qnum (Qred y)).
    + lra.
    + apply round_pos_mono; [exact Hsx | lra].
    + lra.
  - lra.
Qed.

(** [div], [mul], [Math_round] and [percentage] *)

Lemma of_nat_nonneg (n : nat) : 0 <= of_nat n.
Proof. unfold of_nat. change 0 with (inject_Z 0). rewrite <- Zle_Qle. lia. Qed.

Lemma of_nat_le (k k' : nat) : (k <= k')%nat -> of_nat k <= of_nat k'.
Proof. intros H. unfold of_nat. rewrite <- Zle_Qle. lia. Qed.

Lemma Qinv_nonneg (x : Q) : 0 <= x -> 0 <= / x.
Proof.
  intros H. destruct x as [[| p | p] d]; unfold Qle, Qinv in *; simpl in *; lia.
Qed.

Lemma div_mono (a a' b : Q) : 0 <= a -> a <= a' -> 0 <= b -> div a b <= div a' b.
Proof.
  intros Ha Haa Hb. pose proof (Qinv_nonneg Hb) as Hi.
  unfold div, Qdiv. apply fl_mono.
  - apply Qmult_le_0_compat; assumption.
  - apply Qmult_le_compat_r; assumption.
Qed.

Lemma div_nonneg (a b : Q) : 0 <= a -> 0 <= b -> 0 <= div a b.
Proof.
  intros Ha Hb. unfold div, Qdiv. apply fl_nonneg.
  apply Qmult_le_0_compat; [exact Ha | now apply Qinv_nonneg].
Qed.

Lemma mul_mono (a a' b : Q) : 0 <= a -> a <= a' -> 0 <= b -> mul a b <= mul a' b.
Proof.
  intros Ha Haa Hb. unfold mul. apply fl_mono.
  - apply Qmult_le_0_compat; assumption.
  - apply Qmult_le_compat_r; assumption.
Qed.

Lemma Math_round_mono (x y : Q) : x <= y -> (Math_round x <= Math_round y)%Z.
Proof. intros H. unfold Math_round. apply Qfloor_resp_le. lra. Qed.

Lemma Math_round_comp (x y : Q) : x == y -> Math_round x = Math_round y.
Proof. intros H. unfold Math_round. now rewrite H. Qed.

Lemma percentage_mono (k k' n : nat) :
  (k <= k')%nat -> (percentage k n <= percentage k' n)%Z.
Proof.
  intros H. unfold percentage. apply Math_round_mono.
  apply mul_mono; [| | discriminate].
  - apply div_nonneg; apply of_nat_nonneg.
  - apply div_mono; [apply of_nat_nonneg | now apply of_nat_le | apply of_nat_nonneg].
Qed.

Lemma percentage_none (n : nat) : percentage 0 n = 0%Z.
Proof.
  unfold percentage, div, mul.
  assert (H : of_nat 0 / of_nat n == 0) by (unfold of_nat, Qdiv; simpl; ring).
  rewrite (fl_comp H). reflexivity.
Qed.

Lemma percentage_all (n : nat) : (0 < n)%nat -> percentage n n = 100%Z.
Proof.
  intros Hn. unfold percentage, div, mul.
  assert (H : of_nat n / of_nat n == 1).
  { unfold Qdiv. apply Qmult_inv_r. unfold of_nat.
    intros E. unfold Qeq in E. simpl in E. lia. }
  rewrite (fl_comp H). reflexivity.
Qed.

Lemma percentage_range (k n : nat) :
  (k <= n)%nat -> (0 <= percentage k n <= 100)%Z.
Proof.
  intros H. split.
  - rewrite <- (percentage_none n). apply percentage_mono. lia.
  - destruct n as [| n].
    + replace k with 0%nat by lia. now rewrite percentage_none.
    + rewrite <- (@percentage_all (S n)) by lia. now apply percentage_mono.
Qed.

(** The model agrees with the [SpecFloat] operations on every ratio of
    list lengths up to 200. *)
Lemma percentage_agrees_with_binary64 (k n : nat) :
  (k <= n)%nat -> (1 <= n <= 200)%nat -> agrees_with_binary64 k n = true.
Proof.
  intros Hk Hn.
  assert (H : forallb (fun n => forallb (fun k => agrees_with_binary64 k n)
                                  (seq 0 (S n))) (seq 1 200) = true)
    by (vm_compute; reflexivity).
  rewrite forallb_forall in H.
  specialize (H n). rewrite forallb_forall in H.
  apply H; apply in_seq; lia.
Qed.

End NumberFacts.

(** ** The goal model *)

Module GoalModelFacts.

Import Number NumberFacts GoalModel Scenarios.
Local Open Scope Z_scope.

Lemma Status_eqb_eq (a b : Status) : Status_eqb a b = true <-> a = b.
Proof. destruct a, b; simpl; split; congruence. Qed.

Lemma updateProgress_progress (now : Z) (g : Goal) :
  progress (updateProgress now g) = derived_progress (milestones g).
Proof.
  unfold updateProgress.
  destruct (_ && _); [reflexivity |]. destruct (_ && _); reflexivity.
Qed.

Lemma updateProgress_milestones (now : Z) (g : Goal) :
  milestones (updateProgress now g) = milestones g.
Proof.
  unfold updateProgress.
  destruct (_ && _); [reflexivity |]. destruct (_ && _); reflexivity.
Qed.

Lemma updateProgress_completedMilestones (now : Z) (g : Goal) :
  completedMilestones (updateProgress now g)
  = List.length (filter isCompleted (milestones g)).
Proof.
  unfold updateProgress.
  destruct (_ && _); [reflexivity |]. destruct (_ && _); reflexivity.
Qed.

Lemma derived_progress_empty : derived_progress [] = 0.
Proof. reflexivity. Qed.

Lemma filter_length_le {A : Type} (p : A -> bool) (l : list A) :
  (List.length (filter p l) <= List.length l)%nat.
Proof. induction l as [| a l IH]; simpl; [| destruct (p a); simpl]; lia. Qed.

Lemma derived_progress_range (ms : list Milestone) :
  0 <= derived_progress ms <= 100.
Proof.
  unfold derived_progress. destruct (_ <? _)%nat; [| lia].
  apply percentage_range, filter_length_le.
Qed.

Lemma filter_all {A : Type} (p : A -> bool) (l : list A) :
  forallb p l = true -> filter p l = l.
Proof.
  induction l as [| a l IH]; simpl; [reflexivity |].
  intros H. apply andb_true_iff in H as [Ha Hl]. rewrite Ha, IH; auto.
Qed.

Lemma derived_progress_all_completed (ms : list Milestone) :
  ms <> [] -> forallb isCompleted ms = true -> derived_progress ms = 100.
Proof.
  intros Hne Hall. unfold derived_progress. rewrite (filter_all _ _ Hall).
  destruct ms as [| m ms]; [congruence |]. simpl List.length.
  change (0 <? S (List.length ms))%nat with true. cbv iota.
  apply percentage_all. lia.
Qed.

Lemma derived_progress_100_nonempty (ms : list Milestone) :
  derived_progress ms = 100 -> ms <> [].
Proof. intros H E. subst ms. discriminate H. Qed.





Lemma complete_calls_cons (call : Z * string) (calls : list (Z * string))
    (g : Goal) :
  complete_calls (call :: calls) g = complete_calls calls (complete_call g call).
Proof. reflexivity. Qed.






(** C6. [updateProgress] is idempotent: a second recomputation, at any
    later time, returns the goal the first one returned, with the same
    progress, completed count, status and completion stamp. *)
Theorem updateProgress_idempotent (now now' : Z) (g : Goal) :
  updateProgress now' (updateProgress now g) = updateProgress now g.
Proof.
  unfold updateProgress at 1.
  rewrite updateProgress_milestones.
  set (p := derived_progress (milestones g)).
  unfold updateProgress. fold p.
  destruct (Z.eqb_spec p 100) as [E | NE].
  - destruct (status g); simpl; rewrite ?E; reflexivity.
  - destruct (Z.ltb_spec 0 p) as [L | L]; destruct (status g); simpl;
      rewrite ?(proj2 (Z.eqb_neq p 100) NE); simpl;
      rewrite ?(proj2 (Z.ltb_lt 0 p) L), ?(proj2 (Z.ltb_ge 0 p) L); reflexivity.
Qed.

(** The progress of a goal without milestones is 0. *)
Lemma updateProgress_no_milestones (now : Z) (g : Goal) :
  milestones g = [] -> progress (updateProgress now g) = 0.
Proof. intros H. rewrite updateProgress_progress, H. reflexivity. Qed.

(** Three of eight milestones give 38. *)
Lemma updateProgress_3_of_8 (now : Z) :
  progress (updateProgress now (sample_goal active 3 8)) = 38.
Proof. rewrite updateProgress_progress. vm_compute. reflexivity. Qed.

(** With fewer than 40 milestones the stored percentage is the half-up
    rounding of the exact percentage. *)
Lemma percentage_formula_below_40 (k n : nat) :
  (k <= n)%nat -> (0 < n < 40)%nat ->
  percentage k n = Spec.progress_formula k n.
Proof.
  intros Hk Hn.
  assert (H : forallb
                (fun n =>
                   forallb
                     (fun k => percentage k n =? Spec.progress_formula k n)
                     (seq 0 (S n)))
                (seq 1 39) = true)
    by (vm_compute; reflexivity).
  rewrite forallb_forall in H.
  specialize (H n). rewrite forallb_forall in H.
  apply Z.eqb_eq. apply H; apply in_seq; lia.
Qed.

(** C1. The progress after recomputation is not always the half-up
    rounding of [100 * completedCount / total]: with 23 of 40 milestones
    completed, [23 / 40] is rounded to the double below 0.575, the product
    with 100 is 57.49999999999999, and [Math.round] stores 57, while the
    formula on the exact percentage 57.5 gives 58. *)
Theorem updateProgress_23_of_40 (now : Z) :
  progress (updateProgress now (sample_goal active 23 40)) = 57
  /\ completedMilestones (updateProgress now (sample_goal active 23 40)) = 23%nat
  /\ List.length (milestones (sample_goal active 23 40)) = 40%nat
  /\ Spec.progress_formula 23 40 = 58.
Proof.
  rewrite updateProgress_progress, updateProgress_completedMilestones.
  vm_compute. repeat split.
Qed.

(** With 199 of 200 milestones completed the percentage 99.5 is rounded to
    100, and an active goal becomes completed although one milestone is
    still open. *)
Lemma completed_before_last_milestone :
  status (sample_goal active 199 200) = active
  /\ forallb isCompleted (milestones (sample_goal active 199 200)) = false
  /\ status (updateProgress 0 (sample_goal active 199 200)) = completed.
Proof. vm_compute. repeat split. Qed.

(** C5, amended.  [updateProgress] applies exactly these status
    transitions.  If the recomputed progress is 100 (which needs at least one
    milestone) and the status is not completed, the status becomes completed
    and the completion time is stamped.  Otherwise, if the recomputed
    progress is positive and the status was planning, the status becomes
    active.  The status changes in no other case, and the completion stamp
    is written in no other case.  A goal whose milestones are all completed,
    and which has at least one, is completed by the recomputation: the call
    that completes the last open milestone leaves the goal completed. *)
Theorem updateProgress_status_transitions (now : Z) (g : Goal) :
  let g' := updateProgress now g in
  let p := progress g' in
  (p = 100 -> status g <> completed ->
   status g' = completed /\ actualDuration_completedAt g' = Some now)
  /\ (0 < p -> p <> 100 -> status g = planning ->
      status g' = active
      /\ actualDuration_completedAt g' = actualDuration_completedAt g)
  /\ (status g' <> status g ->
      (status g' = completed /\ p = 100)
      \/ (status g' = active /\ status g = planning /\ 0 < p))
  /\ (p <> 100 \/ status g = completed ->
      actualDuration_completedAt g' = actualDuration_completedAt g)
  /\ (p = 100 -> milestones g <> [])
  /\ (milestones g <> [] -> forallb isCompleted (milestones g) = true ->
      status g' = completed).
Proof.
  intros g' p.
  assert (Hp : p = derived_progress (milestones g))
    by apply updateProgress_progress.
  assert (Hall : milestones g <> [] ->
                 forallb isCompleted (milestones g) = true -> p = 100).
  { intros Hne Ha. rewrite Hp. now apply derived_progress_all_completed. }
  assert (Hne : p = 100 -> milestones g <> []).
  { rewrite Hp. apply derived_progress_100_nonempty. }
  clearbody p. subst g'. unfold updateProgress in *. rewrite <- Hp in *.
  destruct (Z.eqb_spec p 100) as [E | NE];
    destruct (Z.ltb_spec 0 p) as [L | L];
    destruct (status g) eqn:S; cbn;
    repeat split; intros; auto; try congruence; try lia;
    try (left; split; [reflexivity | lia]);
    try (right; repeat split; [reflexivity | lia]);
    try (destruct H; congruence);
    try (exfalso; apply Hall in H; [lia | assumption]).
Qed.

Lemma updateProgress_status_transitions_witness :
  status (updateProgress 7 (sample_goal planning 3 3)) = completed
  /\ actualDuration_completedAt (updateProgress 7 (sample_goal planning 3 3))
     = Some 7.
Proof.
  apply (updateProgress_status_transitions 7 (sample_goal planning 3 3)).
  - vm_compute. reflexivity.
  - discriminate.
Defined.

(** A recomputation never leaves the completed status. *)
Lemma updateProgress_keeps_completed (now : Z) (g : Goal) :
  status g = completed -> status (updateProgress now g) = completed.
Proof.
  intros H. unfold updateProgress. rewrite H. cbn.
  rewrite !andb_false_r. reflexivity.
Qed.

Lemma recompute_after_keeps_completed (g : Goal)
    (changes : list (list Milestone * Z)) :
  status g = completed ->
  status (fold_left recompute_after changes g) = completed.
Proof.
  revert g. induction changes as [| change changes IH]; intros g H; simpl.
  - exact H.
  - apply IH. unfold recompute_after. apply updateProgress_keeps_completed.
    exact H.
Qed.

End GoalModelFacts.

(** ** The goal routes *)

Module GoalRoutesFacts.

Import GoalModel GoalRoutes Scenarios PageScenarios.
Local Open Scope string_scope.

(** The unmet list holds one label for each dependency that is missing
    or not completed, in the order of the dependencies. *)
Lemma unmetDependencies_filter (goal : Goal) (deps : list string) :
  unmetDependencies goal deps
  = map (fun depId => unmet_label (milestones_id (milestones goal) depId) depId)
      (filter (dependency_unmet goal) deps).
Proof.
  induction deps as [| depId rest IH]; simpl; [reflexivity |].
  destruct (dependency_unmet goal depId); simpl; congruence.
Qed.

Lemma unmetDependencies_In (goal : Goal) (deps : list string) (depId : string) :
  In depId deps -> dependency_unmet goal depId = true ->
  In (unmet_label (milestones_id (milestones goal) depId) depId)
    (unmetDependencies goal deps).
Proof.
  intros Hin Hun. rewrite unmetDependencies_filter.
  apply in_map with (f := fun d => unmet_label (milestones_id (milestones goal) d) d).
  apply filter_In. split; assumption.
Qed.

(** An open milestone with an unmet dependency is refused and the goal is
    left as it was. *)
Lemma put_milestone_refuses (now : Z) (milestoneId : string) (goal : Goal)
    (m : Milestone) (depId : string) :
  milestones_id (milestones goal) milestoneId = Some m ->
  isCompleted m = false ->
  In depId (dependencies m) ->
  dependency_unmet goal depId = true ->
  put_milestone now milestoneId goal
  = (goal,
     failure 400
       ("Cannot complete milestone. Unmet dependencies: "
          ++ String.concat ", " (unmetDependencies goal (dependencies m)))).
Proof.
  intros Hm Hc Hin Hun. unfold put_milestone. rewrite Hm, Hc.
  pose proof (@unmetDependencies_In goal _ _ Hin Hun) as H.
  destruct (unmetDependencies goal (dependencies m)); [destruct H | reflexivity].
Qed.

Lemma put_milestone_already_completed (now : Z) (milestoneId : string)
    (goal : Goal) (m : Milestone) :
  milestones_id (milestones goal) milestoneId = Some m ->
  isCompleted m = true ->
  put_milestone now milestoneId goal
  = (goal, failure 400 "Milestone is already completed").
Proof. intros Hm Hc. unfold put_milestone. now rewrite Hm, Hc. Qed.

(** A completed milestone B whose dependency A is open: the request is
    answered with "already completed", not with the unmet dependencies. *)
Lemma completed_milestone_with_unmet_dependency :
  milestones_id (milestones (chain_goal false true false)) "B"
  = Some (chain_milestone "B" ["A"] true)
  /\ dependency_unmet (chain_goal false true false) "A" = true
  /\ put_milestone 0 "B" (chain_goal false true false)
     = (chain_goal false true false,
        failure 400 "Milestone is already completed").
Proof. vm_compute. repeat split. Qed.

(** C4, amended.  For a milestone that is not yet completed and has a
    dependency that is open (or names no milestone of the goal), the
    completion request is answered with the unmet-dependencies error, whose
    message lists the title of every unmet dependency (its id when it has no
    title or names no milestone), and the stored goal is exactly the goal
    before the request. *)
Theorem put_milestone_dependencies_unmet (now : Z) (milestoneId : string)
    (goal : Goal) (m : Milestone) (depId : string) :
  milestones_id (milestones goal) milestoneId = Some m ->
  isCompleted m = false ->
  In depId (dependencies m) ->
  dependency_unmet goal depId = true ->
  put_milestone now milestoneId goal
  = (goal,
     failure 400
       ("Cannot complete milestone. Unmet dependencies: "
          ++ String.concat ", " (unmetDependencies goal (dependencies m))))
  /\ unmetDependencies goal (dependencies m)
     = map (fun d => unmet_label (milestones_id (milestones goal) d) d)
         (filter (dependency_unmet goal) (dependencies m))
  /\ In (unmet_label (milestones_id (milestones goal) depId) depId)
       (unmetDependencies goal (dependencies m)).
Proof.
  intros Hm Hc Hin Hun. split; [| split].
  - eapply put_milestone_refuses; eassumption.
  - apply unmetDependencies_filter.
  - now apply unmetDependencies_In.
Qed.

Lemma put_milestone_dependencies_unmet_witness :
  put_milestone 3 "C" (chain_goal true false false)
  = (chain_goal true false false,
     failure 400 "Cannot complete milestone. Unmet dependencies: Step B").
Proof.
  apply (@put_milestone_dependencies_unmet 3 "C" (chain_goal true false false)
           (chain_milestone "C" ["B"] false) "B").
  - reflexivity.
  - reflexivity.
  - simpl. left. reflexivity.
  - reflexivity.
Defined.

(** The route fails closed: a dependency id that names no milestone of the
    goal is reported as unmet and the completion is refused. *)
Lemma put_milestone_fails_closed (now : Z) (milestoneId : string) (goal : Goal)
    (m : Milestone) (depId : string) :
  milestones_id (milestones goal) milestoneId = Some m ->
  isCompleted m = false ->
  In depId (dependencies m) ->
  milestones_id (milestones goal) depId = None ->
  fst (put_milestone now milestoneId goal) = goal
  /\ success (snd (put_milestone now milestoneId goal)) = false
  /\ In depId (unmetDependencies goal (dependencies m)).
Proof.
  intros Hm Hc Hin Hnone.
  assert (Hun : dependency_unmet goal depId = true).
  { unfold dependency_unmet. now rewrite Hnone. }
  rewrite (@put_milestone_refuses now milestoneId goal m depId Hm Hc Hin Hun).
  repeat split.
  pose proof (@unmetDependencies_In goal _ _ Hin Hun) as H.
  now rewrite Hnone in H.
Qed.

(** C3. The page does not fail closed.  For the open milestone [orphan],
    whose only dependency names no milestone, [isMilestoneBlocked] answers
    false and [toggleMilestone] completes it, while the route refuses the
    same completion and reports the id as unmet. *)
Theorem dangling_dependency_ignored_by_page :
  GoalDetailsPage.isMilestoneBlocked [orphan] orphan = false
  /\ option_map
       (fun r => map GoalDetailsPage.isCompleted
                   (GoalDetailsPage.milestoneList (fst r)))
       (GoalDetailsPage.toggleMilestone 0 orphan_page)
     = Some [true]
  /\ put_milestone 0 "m1" orphan_goal
     = (orphan_goal,
        failure 400 "Cannot complete milestone. Unmet dependencies: ghost").
Proof. vm_compute. repeat split. Qed.

(** The stored dependencies never contain the milestone itself. *)
Lemma validDependencies_not_self (goal : Goal) (milestoneId : string)
    (deps : list string) :
  ~ In milestoneId (validDependencies goal milestoneId deps).
Proof.
  unfold validDependencies. intros H. apply filter_In in H as [_ H].
  destruct (milestones_id _ _); [| discriminate].
  rewrite String.eqb_refl in H. discriminate.
Qed.






(** The scenario A, B (needs A), C (needs B): C is refused first, then
    A, B and C complete with progress 33, 67 and 100, and the goal is
    completed by the last call. *)
Lemma chain_scenario :
  let g0 := chain_goal false false false in
  let r0 := put_milestone 1 "C" g0 in
  let r1 := put_milestone 2 "A" (fst r0) in
  let r2 := put_milestone 3 "B" (fst r1) in
  let r3 := put_milestone 4 "C" (fst r2) in
  r0 = (g0, failure 400 "Cannot complete milestone. Unmet dependencies: Step B")
  /\ map (fun r => (progress (fst r), status (fst r))) [r1; r2; r3]
     = [(33%Z, active); (67%Z, active); (100%Z, completed)]
  /\ actualDuration_completedAt (fst r3) = Some 4%Z.
Proof. vm_compute. repeat split. Qed.

End GoalRoutesFacts.

(** ** The goal details page *)

Module GoalDetailsPageFacts.

Import Number GoalDetailsPage PageScenarios.
Local Open Scope string_scope.

(** C2. [isMilestoneBlocked] is true exactly when the milestone is not
    completed and one of its dependencies is an incomplete milestone of the
    list; in particular it is false for every completed milestone, whatever
    the state of its dependencies. *)
Theorem isMilestoneBlocked_iff (milestoneList : list Milestone) (m : Milestone) :
  (isMilestoneBlocked milestoneList m = true <->
   isCompleted m = false
   /\ exists depId depMilestone,
        In depId (dependencies m)
        /\ find (fun x => String.eqb (id x) depId) milestoneList
           = Some depMilestone
        /\ isCompleted depMilestone = false)
  /\ (isCompleted m = true -> isMilestoneBlocked milestoneList m = false).
Proof.
  unfold isMilestoneBlocked. split.
  - destruct (isCompleted m).
    + split; [discriminate | intros [H _]; discriminate].
    + rewrite existsb_exists. split.
      * intros [depId [Hin H]]. split; [reflexivity |].
        destruct (find _ milestoneList) as [dep |] eqn:F; [| discriminate].
        exists depId, dep. repeat split; auto.
        now apply negb_true_iff.
      * intros [_ [depId [dep [Hin [F Hc]]]]].
        exists depId. split; [exact Hin |]. now rewrite F, Hc.
  - intros ->. reflexivity.
Qed.

Lemma isMilestoneBlocked_iff_witness :
  isMilestoneBlocked [orphan; toggle orphan] (toggle orphan) = false.
Proof.
  apply (isMilestoneBlocked_iff [orphan; toggle orphan] (toggle orphan)).
  reflexivity.
Defined.

(** C10. The normalised goal has one of the statuses active, completed
    and paused: a stored status among them is kept, any other stored value
    is replaced by active; a stored progress that is a number is kept, any
    other is replaced by 0. *)
Theorem normalize_status_progress (g : StoredGoal) :
  allowed_status (status (normalize g))
  /\ (allowed_status (stored_status g) ->
      status (normalize g) = stored_status g)
  /\ (~ allowed_status (stored_status g) ->
      status (normalize g) = JStr "active")
  /\ (forall n, stored_progress g = JNum n -> progress (normalize g) = n)
  /\ ((forall n, stored_progress g <> JNum n) -> progress (normalize g) = 0%Q).
Proof.
  unfold allowed_status, normalize. cbn [status progress existsb].
  repeat split.
  - destruct (stored_status g) as [| | b | n | s | l | l];
      cbv beta iota; cbn [orb]; auto.
    destruct (String.eqb_spec "active" s) as [<- | _]; cbn [orb]; auto.
    destruct (String.eqb_spec "completed" s) as [<- | _]; cbn [orb]; auto.
    destruct (String.eqb_spec "paused" s) as [<- | _]; cbn [orb]; auto.
  - intros [-> | [-> | ->]]; reflexivity.
  - intros H. destruct (stored_status g) as [| | b | n | s | l | l];
      cbv beta iota; cbn [orb]; auto.
    destruct (String.eqb_spec "active" s) as [<- | _]; [tauto |].
    destruct (String.eqb_spec "completed" s) as [<- | _]; [tauto |].
    destruct (String.eqb_spec "paused" s) as [<- | _]; [tauto |].
    reflexivity.
  - intros n ->. reflexivity.
  - intros H. destruct (stored_progress g) as [| | b | n | s | l | l];
      try reflexivity.
    now destruct (H n).
Qed.

Lemma normalize_status_progress_witness :
  status (normalize planning_record) = JStr "active"
  /\ progress (normalize planning_record) = 0%Q.
Proof.
  split.
  - apply (normalize_status_progress planning_record).
    unfold allowed_status. simpl. intros [H | [H | H]]; discriminate H.
  - apply (normalize_status_progress planning_record).
    simpl. intros n H. discriminate H.
Defined.

(** The page never writes a status. *)
Lemma persistMilestones_keeps_status (goalId : string)
    (updated : list Milestone) (stored : list StoredGoal) :
  map stored_status (persistMilestones goalId updated stored)
  = map stored_status stored.
Proof.
  unfold persistMilestones. rewrite map_map. apply map_ext.
  intros g. destruct (negb _); reflexivity.
Qed.

Lemma toggleMilestone_keeps_status (index : nat) (page page' : Page)
    (effects : list Effect) :
  toggleMilestone index page = Some (page', effects) ->
  option_map status (goal page') = option_map status (goal page)
  /\ map stored_status (storage page') = map stored_status (storage page).
Proof.
  unfold toggleMilestone.
  destruct (nth_error _ _) as [m |]; [| discriminate].
  destruct (_ && _); intros H; injection H as <- _.
  - split; reflexivity.
  - cbn [goal storage]. split.
    + destruct (goal page); reflexivity.
    + apply persistMilestones_keeps_status.
Qed.

(** A blocked milestone is not toggled: the page only raises the alert. *)
Lemma toggleMilestone_blocked (index : nat) (page : Page) (m : Milestone) :
  nth_error (milestoneList page) index = Some m ->
  isCompleted m = false ->
  isMilestoneBlocked (milestoneList page) m = true ->
  toggleMilestone index page
  = Some (page,
          [alert "Cannot complete this milestone. Please complete its dependencies first."]).
Proof.
  intros Hn Hc Hb. unfold toggleMilestone. now rewrite Hn, Hc, Hb.
Qed.

(** C9. A completed goal stays completed.  On the model, any number of
    recomputations keeps the status completed, whatever the milestones were
    changed to before each of them, a reverted milestone included.  On the
    page, toggling a milestone, in either direction, changes neither the
    status of the goal shown nor any stored status. *)
Theorem completed_status_is_kept :
  (forall (g : GoalModel.Goal) (changes : list (list GoalModel.Milestone * Z)),
      GoalModel.status g = GoalModel.completed ->
      GoalModel.status (fold_left Scenarios.recompute_after changes g)
      = GoalModel.completed)
  /\ (forall (index : nat) (page page' : Page) (effects : list Effect),
        toggleMilestone index page = Some (page', effects) ->
        option_map status (goal page') = option_map status (goal page)
        /\ map stored_status (storage page')
           = map stored_status (storage page)).
Proof.
  split.
  - apply GoalModelFacts.recompute_after_keeps_completed.
  - apply toggleMilestone_keeps_status.
Qed.

Lemma completed_status_is_kept_witness :
  GoalModel.status
    (fold_left Scenarios.recompute_after
       [(GoalModel.milestones (Scenarios.chain_goal true true false), 9%Z)]
       (GoalModel.updateProgress 5 (Scenarios.chain_goal true true true)))
  = GoalModel.completed
  /\ GoalModel.progress
       (fold_left Scenarios.recompute_after
          [(GoalModel.milestones (Scenarios.chain_goal true true false), 9%Z)]
          (GoalModel.updateProgress 5 (Scenarios.chain_goal true true true)))
     = 67%Z.
Proof.
  split.
  - apply (proj1 completed_status_is_kept
             (GoalModel.updateProgress 5 (Scenarios.chain_goal true true true))
             [(GoalModel.milestones (Scenarios.chain_goal true true false), 9%Z)]).
    vm_compute. reflexivity.
  - vm_compute. reflexivity.
Defined.

(** [addDependency] itself stores whatever id it is given, the
    milestone's own id included. *)
Lemma addDependency_accepts_self :
  map dependencies (milestoneList (addDependency "m1" "m1" orphan_page))
  = [["ghost"; "m1"]].
Proof. vm_compute. reflexivity. Qed.

(** The page computes the same percentage as the model. *)
Lemma list_progress_23_of_40 :
  let updated :=
    map (fun i => {| id := Scenarios.milestone_name i;
                     title := "";
                     isCompleted := (i <? 23)%nat;
                     dependencies := [];
                     order := Z.of_nat i |}) (seq 0 40) in
  list_progress updated 0%Z (fun p => p) = 57%Z.
Proof. vm_compute. reflexivity. Qed.

End GoalDetailsPageFacts.

(** * Further properties *)

(** ** Exact binary64 operations *)

Module NumberExactFacts.

Import Number NumberFacts.
Local Open Scope Q_scope.

Lemma binade_lt (x : Q) (n : Z) : 0 < x -> x < 2 ^ n -> (binade x < n)%Z.
Proof.
  intros Hx Hn. destruct (binade_spec Hx) as [Hl _].
  destruct (Z_lt_le_dec (binade x) n) as [H | H]; [exact H | exfalso].
  pose proof (pow2_le H). lra.
Qed.

Lemma binade_unique (x : Q) (e : Z) :
  0 < x -> 2 ^ e <= x -> x < 2 ^ (e + 1) -> binade x = e.
Proof.
  intros Hx Hl Hu. destruct (binade_spec Hx) as [Bl Bu].
  assert (H1 : (binade x < e + 1)%Z) by (apply binade_lt; assumption).
  destruct (Z_lt_le_dec (binade x) e) as [H | H]; [exfalso | lia].
  assert (Hp : 2 ^ (binade x + 1) <= 2 ^ e) by (apply pow2_le; lia).
  lra.
Qed.

Lemma binade_comp (x y : Q) : 0 < x -> x == y -> binade x = binade y.
Proof.
  intros Hx E. assert (Hy : 0 < y) by lra.
  destruct (binade_spec Hy) as [Bl Bu].
  apply binade_unique; lra.
Qed.

Lemma round_ties_even_comp (x y : Q) :
  x == y -> round_ties_even x = round_ties_even y.
Proof.
  intros E. unfold round_ties_even. rewrite (Qfloor_comp _ _ E).
  assert (H : x - inject_Z (Qfloor y) == y - inject_Z (Qfloor y)) by lra.
  now rewrite (Qcompare_comp _ _ H (1 # 2) (1 # 2) (Qeq_refl _)).
Qed.

Lemma round_pos_comp (x y : Q) : 0 < x -> x == y -> round_pos x == round_pos y.
Proof.
  intros Hx E. unfold round_pos. rewrite (binade_comp Hx E).
  set (e := (binade y - (prec - 1))%Z).
  assert (H : x / 2 ^ e == y / 2 ^ e) by now rewrite E.
  now rewrite (round_ties_even_comp H).
Qed.

Lemma pow2_opp_mul (e : Z) : 2 ^ e * 2 ^ (- e) == 1.
Proof. rewrite <- pow2_plus. replace (e + - e)%Z with 0%Z by ring. reflexivity. Qed.

(** A positive rational [m * 2^k] with [m < 2^53] is a binary64 value:
    rounding leaves it as it is. *)
Lemma round_pos_exact (m k : Z) :
  (0 < m < 2 ^ prec)%Z ->
  round_pos (inject_Z m * 2 ^ k) == inject_Z m * 2 ^ k.
Proof.
  intros Hm. set (x := inject_Z m * 2 ^ k).
  assert (Hm0 : 0 < inject_Z m).
  { change 0 with (inject_Z 0). rewrite <- Zlt_Qlt. lia. }
  assert (Hx : 0 < x).
  { unfold x. apply Qmult_lt_0_compat; [exact Hm0 | apply pow2_pos]. }
  destruct (binade_spec Hx) as [Hl Hu].
  unfold round_pos. set (e := (binade x - (prec - 1))%Z).
  assert (Hke : (e <= k)%Z).
  { destruct (Z_lt_le_dec k e) as [H | H]; [exfalso | exact H].
    assert (Hb : (k + prec <= binade x)%Z) by (unfold e in H; lia).
    pose proof (pow2_le Hb) as Hp. rewrite pow2_plus in Hp.
    assert (Hmp : inject_Z m < 2 ^ prec).
    { rewrite <- pow2_inject by (unfold prec; lia). rewrite <- Zlt_Qlt. lia. }
    pose proof (pow2_pos k) as Hk.
    assert (x < 2 ^ k * 2 ^ prec).
    { unfold x. rewrite (Qmult_comm (2 ^ k)). apply Qmult_lt_compat_r; assumption. }
    lra. }
  assert (Hs : x / 2 ^ e == inject_Z (m * 2 ^ (k - e))).
  { rewrite inject_Z_mult, pow2_inject by lia.
    unfold x, Qdiv. rewrite <- Qmult_assoc. apply Qmult_comp; [reflexivity |].
    replace (k - e)%Z with (k + - e)%Z by ring. rewrite pow2_plus.
    apply Qmult_comp; [reflexivity |].
    apply Qmult_inj_l with (z := 2 ^ e).
    - pose proof (pow2_pos e). lra.
    - rewrite pow2_opp_mul. apply Qmult_inv_r. pose proof (pow2_pos e). lra. }
  assert (Hr : round_ties_even (x / 2 ^ e) = (m * 2 ^ (k - e))%Z).
  { rewrite (round_ties_even_comp Hs). apply round_ties_even_Z. }
  rewrite Hr, <- Hs. unfold Qdiv. rewrite <- Qmult_assoc, (Qmult_comm (/ _)).
  rewrite Qmult_inv_r, Qmult_1_r; [reflexivity |].
  pose proof (pow2_pos e). lra.
Qed.

Lemma fl_exact (m k : Z) :
  (0 <= m < 2 ^ prec)%Z -> fl (inject_Z m * 2 ^ k) == inject_Z m * 2 ^ k.
Proof.
  intros Hm. unfold fl.
  pose proof (Qnum_sign (Qred (inject_Z m * 2 ^ k))) as Hs.
  pose proof (Qred_correct (inject_Z m * 2 ^ k)) as Hr.
  pose proof (pow2_pos k) as Hk.
  assert (H0 : 0 <= inject_Z m * 2 ^ k).
  { apply Qmult_le_0_compat; [| lra].
    change 0 with (inject_Z 0). rewrite <- Zle_Qle. lia. }
  destruct (Qnum (Qred (inject_Z m * 2 ^ k))) eqn:E.
  - lra.
  - assert (Hm' : (0 < m)%Z).
    { destruct (Z.eq_dec m 0) as [-> | N]; [| lia].
      exfalso. assert (inject_Z 0 * 2 ^ k == 0) by ring. lra. }
    rewrite (round_pos_comp Hs Hr). apply round_pos_exact. lia.
  - lra.
Qed.

(** Halving a list length is exact. *)
Lemma div_2_exact (n : nat) :
  (Z.of_nat n < 2 ^ prec)%Z -> div (of_nat n) 2 == of_nat n / 2.
Proof.
  intros Hn. unfold div.
  assert (H : of_nat n / 2 == inject_Z (Z.of_nat n) * 2 ^ (-1)).
  { unfold of_nat. reflexivity. }
  rewrite (fl_comp H), H. apply fl_exact. lia.
Qed.

Lemma Qinv_le_antitone (a b : Q) : 0 < a -> a <= b -> / b <= / a.
Proof.
  intros Ha Hab. apply Qle_shift_inv_r; [lra |].
  pose proof (Qinv_lt_0_compat a Ha) as Hi.
  assert (H1 : / a * a == 1) by (rewrite Qmult_comm; apply Qmult_inv_r; lra).
  rewrite <- H1. apply Qmult_le_l; assumption.
Qed.

(** [Math.floor(168 / n)] is the integer quotient. *)
Lemma floor_168_div (n : Z) :
  (1 <= n)%Z -> Qfloor (div 168 (inject_Z n)) = (168 / n)%Z.
Proof.
  intros Hn. destruct (Z_le_gt_dec n 168) as [Hs | Hb].
  - assert (H : forallb
                  (fun i => Qfloor (div 168 (inject_Z (Z.of_nat i)))
                            =? 168 / Z.of_nat i)%Z
                  (seq 1 168) = true)
      by (vm_compute; reflexivity).
    rewrite forallb_forall in H. specialize (H (Z.to_nat n)).
    rewrite Z2Nat.id in H by lia. apply Z.eqb_eq, H, in_seq. lia.
  - rewrite Z.div_small by lia.
    assert (Hn0 : 0 <= inject_Z n).
    { change 0 with (inject_Z 0). rewrite <- Zle_Qle. lia. }
    assert (Hi : / inject_Z n <= / inject_Z 169).
    { apply Qinv_le_antitone; [reflexivity |]. rewrite <- Zle_Qle. lia. }
    assert (Hu : div 168 (inject_Z n) <= div 168 (inject_Z 169)).
    { unfold div, Qdiv. apply fl_mono.
      - apply Qmult_le_0_compat; [discriminate | now apply Qinv_nonneg].
      - apply Qmult_le_l; [reflexivity | exact Hi]. }
    assert (Hl : 0 <= div 168 (inject_Z n)).
    { apply div_nonneg; [discriminate | exact Hn0]. }
    assert (Hc : div 168 (inject_Z 169) < 1) by (vm_compute; reflexivity).
    apply Qfloor_resp_le in Hl. change (Qfloor 0) with 0%Z in Hl.
    assert (Hlt : div 168 (inject_Z n) < inject_Z 1) by (change (inject_Z 1) with 1; lra).
    pose proof (Qfloor_le (div 168 (inject_Z n))) as Hf.
    assert (inject_Z (Qfloor (div 168 (inject_Z n))) < inject_Z 1) by lra.
    rewrite <- Zlt_Qlt in H. lia.
Qed.

(** More milestones with the same number completed never raise the
    percentage. *)
Lemma percentage_antitone (k n n' : nat) :
  (0 < n <= n')%nat -> (percentage k n' <= percentage k n)%Z.
Proof.
  intros Hn. unfold percentage. apply Math_round_mono.
  assert (H0 : 0 < of_nat n).
  { unfold of_nat. change 0 with (inject_Z 0). rewrite <- Zlt_Qlt. lia. }
  assert (Hle : of_nat n <= of_nat n') by (apply of_nat_le; lia).
  assert (Hi : / of_nat n' <= / of_nat n).
  { now apply Qinv_le_antitone. }
  apply mul_mono; [| | discriminate].
  - apply div_nonneg; apply of_nat_nonneg.
  - unfold div, Qdiv. apply fl_mono.
    + apply Qmult_le_0_compat; [apply of_nat_nonneg | apply Qinv_nonneg; lra].
    + pose proof (of_nat_nonneg k).
      rewrite !(Qmult_comm (of_nat k)).
      apply Qmult_le_compat_r; assumption.
Qed.

End NumberExactFacts.

(** ** The goal model: adding and completing milestones *)

Module GoalModelMoreFacts.

Import Number NumberFacts NumberExactFacts GoalModel Scenarios Invariants GoalModelFacts.
Local Open Scope Z_scope.

(** X1. After [updateProgress] the stored progress lies between 0 and
    100, the stored count of completed milestones is at most the number of
    milestones, and the virtual [completionPercentage] equals the stored
    progress. *)
Theorem updateProgress_consistent (now : Z) (g : Goal) :
  0 <= progress (updateProgress now g) <= 100
  /\ (completedMilestones (updateProgress now g)
      <= totalMilestones (updateProgress now g))%nat
  /\ totalMilestones (updateProgress now g) = totalMilestones g
  /\ completionPercentage (updateProgress now g)
     = progress (updateProgress now g).
Proof.
  unfold totalMilestones, completionPercentage.
  rewrite updateProgress_progress, updateProgress_milestones,
    updateProgress_completedMilestones.
  repeat split.
  - apply derived_progress_range.
  - apply derived_progress_range.
  - apply filter_length_le.
  - unfold derived_progress.
    destruct (List.length (milestones g)); reflexivity.
Qed.

Lemma addMilestone_ordered (d : Milestone) (g : Goal) :
  ordered_by_position g -> ordered_by_position (addMilestone d g).
Proof.
  unfold ordered_by_position, addMilestone, set_milestones. cbn [milestones].
  intros H. rewrite map_app, H, length_app. cbn [List.length map order set_order].
  rewrite Nat.add_1_r, seq_S, map_app. reflexivity.
Qed.

(** X2. [addMilestone] numbers milestones by position: if every milestone
    of a goal has its position as [order], the same holds after any number
    of [addMilestone] calls, each of which adds one milestone at the end. *)
Theorem addMilestone_orders (ds : list Milestone) (g : Goal) :
  ordered_by_position g ->
  ordered_by_position (fold_left (fun g d => addMilestone d g) ds g)
  /\ List.length (milestones (fold_left (fun g d => addMilestone d g) ds g))
     = (List.length (milestones g) + List.length ds)%nat.
Proof.
  revert g. induction ds as [| d ds IH]; intros g H; simpl.
  - split; [exact H | lia].
  - destruct (IH (addMilestone d g) (addMilestone_ordered d H)) as [H1 H2].
    split; [exact H1 |]. rewrite H2.
    unfold addMilestone, set_milestones. cbn [milestones].
    rewrite length_app. simpl. lia.
Qed.

Lemma addMilestone_orders_witness :
  map order
    (milestones
       (fold_left (fun g d => addMilestone d g)
          [chain_milestone "A" [] false; chain_milestone "B" [] true]
          (sample_goal planning 0 0)))
  = [0; 1].
Proof.
  apply (@addMilestone_orders
           [chain_milestone "A" [] false; chain_milestone "B" [] true]
           (sample_goal planning 0 0)).
  reflexivity.
Defined.

(** X3. [addMilestone] does not recompute: the stored progress, status
    and completed count stay as they were, while the progress that the next
    recomputation will store is, for an open new milestone, at most the one
    derived before. *)
Theorem addMilestone_stale_progress (d : Milestone) (g : Goal) :
  isCompleted d = false ->
  progress (addMilestone d g) = progress g
  /\ status (addMilestone d g) = status g
  /\ completedMilestones (addMilestone d g) = completedMilestones g
  /\ derived_progress (milestones (addMilestone d g))
     <= derived_progress (milestones g).
Proof.
  intros Hd. repeat split.
  unfold addMilestone, set_milestones. cbn [milestones].
  unfold derived_progress. rewrite filter_app, !length_app.
  cbn [filter set_order isCompleted]. rewrite Hd. cbn [List.length].
  rewrite Nat.add_0_r, Nat.add_1_r.
  destruct (milestones g) as [| m ms] eqn:E.
  - cbn [filter List.length].
    change (0 <? 1)%nat with true. change (0 <? 0)%nat with false. cbv iota.
    rewrite percentage_none. lia.
  - change (0 <? S (List.length (m :: ms)))%nat with true.
    change (0 <? List.length (m :: ms))%nat with true. cbv iota.
    apply percentage_antitone. simpl. lia.
Qed.

Lemma addMilestone_stale_progress_witness :
  derived_progress
    (milestones (addMilestone (chain_milestone "D" [] false)
                   (chain_goal true true true)))
  <= derived_progress (milestones (chain_goal true true true)).
Proof.
  apply (@addMilestone_stale_progress (chain_milestone "D" [] false)
           (chain_goal true true true)).
  reflexivity.
Defined.

Lemma update_id_ids (f : Milestone -> Milestone) (i : string) (ms : list Milestone) :
  (forall x, _id (f x) = _id x) ->
  map _id (update_id f i ms) = map _id ms.
Proof.
  intros Hf. induction ms as [| m ms IH]; simpl; [reflexivity |].
  destruct (String.eqb (_id m) i); simpl; [now rewrite Hf | now rewrite IH].
Qed.

Lemma update_id_dependencies (now : Z) (i : string) (ms : list Milestone) :
  map dependencies (update_id (mark_completed now) i ms) = map dependencies ms.
Proof.
  induction ms as [| m ms IH]; simpl; [reflexivity |].
  destruct (String.eqb (_id m) i); simpl; [reflexivity | now rewrite IH].
Qed.

Lemma milestones_id_update_other (f : Milestone -> Milestone) (i d : string)
    (ms : list Milestone) :
  (forall x, _id (f x) = _id x) -> d <> i ->
  milestones_id (update_id f i ms) d = milestones_id ms d.
Proof.
  intros Hf Hd. unfold milestones_id.
  induction ms as [| m ms IH]; simpl; [reflexivity |].
  destruct (String.eqb_spec (_id m) i) as [E | NE]; simpl.
  - rewrite Hf. destruct (String.eqb_spec (_id m) d) as [E' | _]; [congruence | reflexivity].
  - destruct (String.eqb (_id m) d); [reflexivity | exact IH].
Qed.

Lemma milestones_id_update_same (f : Milestone -> Milestone) (i : string)
    (ms : list Milestone) :
  (forall x, _id (f x) = _id x) ->
  milestones_id (update_id f i ms) i = option_map f (milestones_id ms i).
Proof.
  intros Hf. unfold milestones_id.
  induction ms as [| m ms IH]; simpl; [reflexivity |].
  destruct (String.eqb (_id m) i) eqn:E; simpl.
  - now rewrite Hf, E.
  - now rewrite E.
Qed.

Lemma update_id_keeps_completed (now : Z) (i : string) (ms : list Milestone)
    (k : nat) (m : Milestone) :
  nth_error ms k = Some m -> isCompleted m = true ->
  exists m', nth_error (update_id (mark_completed now) i ms) k = Some m'
             /\ isCompleted m' = true /\ _id m' = _id m.
Proof.
  revert k. induction ms as [| x ms IH]; intros k Hk Hc.
  - destruct k; discriminate.
  - simpl. destruct (String.eqb (_id x) i).
    + destruct k; simpl in *.
      * injection Hk as <-. eexists. repeat split.
      * eauto.
    + destruct k; simpl in *; eauto.
Qed.

(** X4. A successful [completeMilestone] marks the milestone with the
    given id as completed at the given time and nothing else: ids and
    dependencies of all milestones are unchanged, every other id resolves to
    the milestone it resolved to before, and no completed milestone is
    reopened. *)
Theorem completeMilestone_effect (now : Z) (i : string) (g g' : Goal) :
  completeMilestone now i g = inl g' ->
  map _id (milestones g') = map _id (milestones g)
  /\ map dependencies (milestones g') = map dependencies (milestones g)
  /\ (exists m, milestones_id (milestones g) i = Some m
                /\ milestones_id (milestones g') i = Some (mark_completed now m))
  /\ (forall d, d <> i ->
        milestones_id (milestones g') d = milestones_id (milestones g) d)
  /\ (forall k m, nth_error (milestones g) k = Some m -> isCompleted m = true ->
        exists m', nth_error (milestones g') k = Some m'
                   /\ isCompleted m' = true /\ _id m' = _id m).
Proof.
  unfold completeMilestone.
  destruct (milestones_id (milestones g) i) as [m |] eqn:F; [| discriminate].
  intros H. injection H as <-. rewrite updateProgress_milestones.
  unfold set_milestones. cbn [milestones].
  split; [| split; [| split; [| split]]].
  - now apply update_id_ids.
  - apply update_id_dependencies.
  - exists m. split; [reflexivity |].
    rewrite milestones_id_update_same by reflexivity. now rewrite F.
  - intros d Hd. now apply milestones_id_update_other.
  - intros k m0. apply update_id_keeps_completed.
Qed.

Lemma completeMilestone_effect_witness :
  map _id (milestones (complete_call (chain_goal false false false) (5, "A"%string)))
  = ["A"%string; "B"%string; "C"%string].
Proof.
  apply (@completeMilestone_effect 5 "A" (chain_goal false false false)
           (complete_call (chain_goal false false false) (5, "A"%string))).
  reflexivity.
Defined.

Lemma update_id_flags (now : Z) (i : string) (ms : list Milestone) :
  NoDup (map _id ms) ->
  map isCompleted (update_id (mark_completed now) i ms)
  = map (fun m => isCompleted m || String.eqb (_id m) i) ms.
Proof.
  induction ms as [| m ms IH]; intros Hnd; simpl; [reflexivity |].
  inversion Hnd as [| x l Hnotin Hnd' E]; subst.
  destruct (String.eqb_spec (_id m) i) as [E | NE]; simpl.
  - rewrite orb_true_r. f_equal.
    apply map_ext_in. intros a Ha.
    destruct (String.eqb_spec (_id a) i) as [E' | _]; [| now rewrite orb_false_r].
    exfalso. apply Hnotin. rewrite E, <- E'. now apply in_map.
  - rewrite orb_false_r. f_equal. now apply IH.
Qed.

Lemma milestones_id_None (ms : list Milestone) (i : string) :
  milestones_id ms i = None <-> ~ In i (map _id ms).
Proof.
  unfold milestones_id. induction ms as [| m ms IH]; simpl.
  - tauto.
  - destruct (String.eqb_spec (_id m) i) as [E | NE].
    + split; [discriminate | intros H; exfalso; apply H; now left].
    + rewrite IH. tauto.
Qed.

Lemma complete_call_ids (g : Goal) (call : Z * string) :
  map _id (milestones (complete_call g call)) = map _id (milestones g).
Proof.
  unfold complete_call, completeMilestone.
  destruct (milestones_id _ _); [| reflexivity].
  rewrite updateProgress_milestones. unfold set_milestones. cbn [milestones].
  now apply update_id_ids.
Qed.

Lemma complete_call_flags (g : Goal) (call : Z * string) :
  NoDup (map _id (milestones g)) ->
  map isCompleted (milestones (complete_call g call))
  = map (fun m => isCompleted m || String.eqb (_id m) (snd call)) (milestones g).
Proof.
  intros Hnd. unfold complete_call, completeMilestone.
  destruct (milestones_id (milestones g) (snd call)) eqn:F.
  - rewrite updateProgress_milestones. unfold set_milestones. cbn [milestones].
    now apply update_id_flags.
  - apply map_ext_in. intros m Hm.
    destruct (String.eqb_spec (_id m) (snd call)) as [E | _];
      [| now rewrite orb_false_r].
    exfalso. apply milestones_id_None in F. apply F. rewrite <- E.
    now apply in_map.
Qed.

Lemma complete_calls_ids (calls : list (Z * string)) (g : Goal) :
  map _id (milestones (complete_calls calls g)) = map _id (milestones g).
Proof.
  revert g. induction calls as [| c cs IH]; intros g; [reflexivity |].
  rewrite complete_calls_cons, IH. apply complete_call_ids.
Qed.

(** After a sequence of calls, the completed milestones are those that
    were completed before and those named by a call. *)
Lemma complete_calls_flags (calls : list (Z * string)) (g : Goal) (k : nat) :
  NoDup (map _id (milestones g)) ->
  nth_error (map isCompleted (milestones (complete_calls calls g))) k
  = option_map
      (fun m => isCompleted m
                || existsb (String.eqb (_id m)) (map snd calls))
      (nth_error (milestones g) k).
Proof.
  revert g. induction calls as [| c cs IH]; intros g Hnd.
  - cbn [complete_calls fold_left map existsb]. rewrite nth_error_map.
    destruct (nth_error (milestones g) k); cbn; [now rewrite orb_false_r | reflexivity].
  - rewrite complete_calls_cons, IH by (now rewrite complete_call_ids).
    pose proof (complete_call_flags g c Hnd) as Hf.
    pose proof (complete_call_ids g c) as Hi.
    apply (f_equal (fun l => nth_error l k)) in Hf, Hi.
    rewrite !nth_error_map in Hf, Hi.
    destruct (nth_error (milestones (complete_call g c)) k) as [m' |];
      destruct (nth_error (milestones g) k) as [m |]; cbn in *;
      try discriminate; [| reflexivity].
    injection Hf as Hf. injection Hi as Hi.
    rewrite Hf, Hi. cbn [map existsb]. now rewrite orb_assoc.
Qed.

Lemma updateProgress_all_completed (now : Z) (g : Goal) :
  milestones g <> [] -> forallb isCompleted (milestones g) = true ->
  status (updateProgress now g) = completed
  /\ progress (updateProgress now g) = 100.
Proof.
  intros Hne Hall.
  pose proof (derived_progress_all_completed Hne Hall) as Hp.
  unfold updateProgress. rewrite Hp. cbn.
  destruct (status g); cbn; split; reflexivity.
Qed.

Lemma complete_call_settled (g : Goal) (call : Z * string) :
  settled g \/ In (snd call) (map _id (milestones g)) ->
  settled (complete_call g call).
Proof.
  intros H. unfold complete_call, completeMilestone.
  destruct (milestones_id (milestones g) (snd call)) eqn:F.
  - intros Hne Hall. rewrite updateProgress_milestones in Hne, Hall.
    now apply updateProgress_all_completed.
  - destruct H as [H | H]; [exact H |].
    apply milestones_id_None in F. contradiction.
Qed.

Lemma complete_calls_settled (calls : list (Z * string)) (g : Goal) :
  settled g
  \/ (exists i, In i (map snd calls) /\ In i (map _id (milestones g))) ->
  settled (complete_calls calls g).
Proof.
  revert g. induction calls as [| c cs IH]; intros g H.
  - destruct H as [H | [i [[] _]]]. exact H.
  - rewrite complete_calls_cons. apply IH.
    destruct H as [H | [i [Hi Hg]]].
    + left. apply complete_call_settled. now left.
    + destruct Hi as [<- | Hi].
      * left. apply complete_call_settled. now right.
      * right. exists i. split; [exact Hi |]. now rewrite complete_call_ids.
Qed.

(** X5. Completing every milestone completes the goal: for a goal with
    at least one milestone and pairwise distinct ids, after a sequence of
    [completeMilestone] calls that names every milestone (in any order, with
    repetitions or unknown ids in between) all milestones are completed, the
    status is completed and the progress is 100. *)
Theorem completing_every_milestone_completes_goal
    (calls : list (Z * string)) (g : Goal) :
  NoDup (map _id (milestones g)) ->
  milestones g <> [] ->
  (forall m, In m (milestones g) -> In (_id m) (map snd calls)) ->
  forallb isCompleted (milestones (complete_calls calls g)) = true
  /\ status (complete_calls calls g) = completed
  /\ progress (complete_calls calls g) = 100.
Proof.
  intros Hnd Hne Hcov.
  assert (Hall : forallb isCompleted (milestones (complete_calls calls g)) = true).
  { apply forallb_forall. intros m' Hm'.
    apply In_nth_error in Hm' as [k Hk].
    pose proof (complete_calls_flags calls g k Hnd) as Hf.
    rewrite nth_error_map, Hk in Hf. cbn in Hf.
    destruct (nth_error (milestones g) k) as [m |] eqn:Hm; [| discriminate].
    cbn in Hf. injection Hf as ->.
    apply orb_true_iff. right. apply existsb_exists.
    exists (_id m). split; [| apply String.eqb_refl].
    apply Hcov. eapply nth_error_In; eassumption. }
  split; [exact Hall |].
  assert (Hne' : milestones (complete_calls calls g) <> []).
  { intros E. apply (f_equal (map _id)) in E.
    rewrite complete_calls_ids in E. destruct (milestones g); [congruence | discriminate]. }
  apply (@complete_calls_settled calls g); [| exact Hne' | exact Hall].
  right. destruct (milestones g) as [| m ms] eqn:E; [congruence |].
  exists (_id m). split; [apply Hcov; now left | now left].
Qed.

Lemma completing_every_milestone_completes_goal_witness :
  status
    (complete_calls [(1, "C"%string); (2, "A"%string); (3, "B"%string)]
       (chain_goal false false false)) = completed.
Proof.
  apply (@completing_every_milestone_completes_goal
           [(1, "C"%string); (2, "A"%string); (3, "B"%string)]
           (chain_goal false false false)).
  - repeat constructor; simpl; intuition discriminate.
  - discriminate.
  - simpl. intros m [<- | [<- | [<- | []]]]; simpl; auto.
Defined.

(** X24. For a goal with fewer than 40 milestones the progress stored
    by [updateProgress] is the half-up rounding of the exact percentage of
    completed milestones (0 without milestones). *)
Theorem updateProgress_formula_below_40 (now : Z) (g : Goal) :
  (List.length (milestones g) < 40)%nat ->
  progress (updateProgress now g)
  = Spec.progress_formula
      (List.length (filter isCompleted (milestones g)))
      (List.length (milestones g)).
Proof.
  intros H. rewrite updateProgress_progress. unfold derived_progress.
  destruct (milestones g) as [| m ms] eqn:E; [reflexivity |].
  change (0 <? List.length (m :: ms))%nat with true. cbv iota.
  apply percentage_formula_below_40.
  - apply filter_length_le.
  - simpl in *. lia.
Qed.

Lemma updateProgress_formula_below_40_witness :
  progress (updateProgress 0 (sample_goal active 2 3))
  = Spec.progress_formula 2 3.
Proof.
  apply (@updateProgress_formula_below_40 0 (sample_goal active 2 3)).
  simpl. lia.
Defined.

End GoalModelMoreFacts.

(** ** The goal routes: outcomes and invariants *)

Module GoalRoutesMoreFacts.

Import GoalModel GoalRoutes Scenarios Invariants GoalModelFacts GoalRoutesFacts GoalModelMoreFacts.
Local Open Scope string_scope.

Lemma unmetDependencies_nil (goal : Goal) (deps : list string) :
  unmetDependencies goal deps = []
  <-> forall d, In d deps -> dependency_unmet goal d = false.
Proof.
  induction deps as [| d ds IH]; simpl.
  - split; [intros _ d [] | reflexivity].
  - destruct (dependency_unmet goal d) eqn:E.
    + split; [discriminate |]. intros H. specialize (H d (or_introl eq_refl)). congruence.
    + rewrite IH. split.
      * intros H x [<- | Hx]; auto.
      * intros H x Hx. apply H. now right.
Qed.

Lemma put_milestone_accepts (now : Z) (milestoneId : string) (goal : Goal)
    (m : Milestone) :
  milestones_id (milestones goal) milestoneId = Some m ->
  isCompleted m = false ->
  (forall d, In d (dependencies m) -> dependency_unmet goal d = false) ->
  put_milestone now milestoneId goal
  = (updateProgress now
       (set_milestones
          (update_id (mark_completed now) milestoneId (milestones goal)) goal),
     ok "Milestone completed successfully"
       (updateProgress now
          (set_milestones
             (update_id (mark_completed now) milestoneId (milestones goal))
             goal))).
Proof.
  intros Hm Hc Hd. unfold put_milestone. rewrite Hm, Hc.
  apply unmetDependencies_nil in Hd. rewrite Hd. cbn.
  unfold completeMilestone. now rewrite Hm.
Qed.

Lemma put_milestone_success_inv (now : Z) (milestoneId : string) (goal : Goal) :
  success (snd (put_milestone now milestoneId goal)) = true
  <-> exists m,
        milestones_id (milestones goal) milestoneId = Some m
        /\ isCompleted m = false
        /\ forall d, In d (dependencies m) ->
             exists dep, milestones_id (milestones goal) d = Some dep
                         /\ isCompleted dep = true.
Proof.
  assert (Hu : forall d, dependency_unmet goal d = false <->
                 exists dep, milestones_id (milestones goal) d = Some dep
                             /\ isCompleted dep = true).
  { intros d. unfold dependency_unmet.
    destruct (milestones_id (milestones goal) d) as [dep |].
    - rewrite negb_false_iff. split; [eauto | intros [x [E H]]; congruence].
    - split; [discriminate | intros [x [E _]]; discriminate]. }
  split.
  - unfold put_milestone.
    destruct (milestones_id (milestones goal) milestoneId) as [m |] eqn:F;
      [| discriminate].
    destruct (isCompleted m) eqn:C; [discriminate |].
    destruct (unmetDependencies goal (dependencies m)) eqn:U; [| discriminate].
    intros _. exists m. split; [reflexivity | split; [exact C |]].
    intros d Hd. apply Hu. now apply (proj1 (unmetDependencies_nil goal _) U).
  - intros [m [F [C H]]].
    rewrite (@put_milestone_accepts now milestoneId goal m F C).
    + reflexivity.
    + intros d Hd. apply Hu. now apply H.
Qed.


Lemma put_milestone_failure_inv (now : Z) (milestoneId : string)
    (goal : Goal) :
  success (snd (put_milestone now milestoneId goal)) = false ->
  fst (put_milestone now milestoneId goal) = goal
  /\ data (snd (put_milestone now milestoneId goal)) = None
  /\ (code (snd (put_milestone now milestoneId goal)) = 404%Z
      <-> milestones_id (milestones goal) milestoneId = None).
Proof.
  unfold put_milestone.
  destruct (milestones_id (milestones goal) milestoneId) as [m |] eqn:F.
  - destruct (isCompleted m).
    + intros _. cbn. repeat split; discriminate.
    + destruct (0 <? _)%nat.
      * intros _. cbn. repeat split; discriminate.
      * unfold completeMilestone. rewrite F. discriminate.
  - intros _. cbn. repeat split; reflexivity.
Qed.



(** X8. Repeating a successful completion request is refused with
    "already completed" and changes nothing. *)
Theorem put_milestone_twice (now now' : Z) (milestoneId : string) (goal : Goal) :
  success (snd (put_milestone now milestoneId goal)) = true ->
  put_milestone now' milestoneId (fst (put_milestone now milestoneId goal))
  = (fst (put_milestone now milestoneId goal),
     failure 400 "Milestone is already completed").
Proof.
  intros H. apply put_milestone_success_inv in H as [m [F [C Hd]]].
  assert (Hu : forall d, In d (dependencies m) -> dependency_unmet goal d = false).
  { intros d Hin. destruct (Hd d Hin) as [dep [E Hc]].
    unfold dependency_unmet. now rewrite E, Hc. }
  rewrite (@put_milestone_accepts now milestoneId goal m F C Hu). cbn [fst].
  apply put_milestone_already_completed with (m := mark_completed now m).
  - rewrite updateProgress_milestones. unfold set_milestones. cbn [milestones].
    rewrite milestones_id_update_same by reflexivity. now rewrite F.
  - reflexivity.
Qed.

Lemma put_milestone_twice_witness :
  put_milestone 2 "A" (fst (put_milestone 1 "A" (chain_goal false false false)))
  = (fst (put_milestone 1 "A" (chain_goal false false false)),
     failure 400 "Milestone is already completed").
Proof.
  apply (@put_milestone_twice 1 2 "A" (chain_goal false false false)).
  reflexivity.
Defined.

Lemma milestones_id_In (ms : list Milestone) (i : string) (m : Milestone) :
  milestones_id ms i = Some m -> In m ms /\ _id m = i.
Proof.
  unfold milestones_id. intros H. apply find_some in H as [H1 H2].
  split; [exact H1 | now apply String.eqb_eq].
Qed.

Lemma update_id_In (f : Milestone -> Milestone) (i : string)
    (ms : list Milestone) (x : Milestone) :
  In x (update_id f i ms) ->
  In x ms \/ exists m, milestones_id ms i = Some m /\ x = f m.
Proof.
  unfold milestones_id. induction ms as [| m ms IH]; simpl; [tauto |].
  destruct (String.eqb (_id m) i) eqn:E; simpl.
  - intros [<- | H]; [right; eauto | left; now right].
  - intros [<- | H]; [left; now left |].
    destruct (IH H) as [H' | H']; [left; now right | right; exact H'].
Qed.

Lemma dependency_unmet_after_completion (now : Z) (i d : string) (g g' : Goal) :
  milestones g' = update_id (mark_completed now) i (milestones g) ->
  dependency_unmet g d = false -> dependency_unmet g' d = false.
Proof.
  intros Hms. unfold dependency_unmet. rewrite Hms.
  destruct (String.eqb_spec d i) as [-> | NE].
  - rewrite milestones_id_update_same by reflexivity.
    destruct (milestones_id (milestones g) i); cbn; [reflexivity | discriminate].
  - now rewrite milestones_id_update_other by (reflexivity || assumption).
Qed.

(** X9. The completion route keeps the dependency closure: if every
    completed milestone of a goal has all its dependencies completed, the
    same holds after any completion request. *)
Theorem put_milestone_keeps_dependency_closed (now : Z) (milestoneId : string)
    (goal : Goal) :
  dependency_closed goal ->
  dependency_closed (fst (put_milestone now milestoneId goal)).
Proof.
  intros Hcl.
  destruct (success (snd (put_milestone now milestoneId goal))) eqn:S.
  - apply put_milestone_success_inv in S as [m [F [C Hd]]].
    assert (Hu : forall d, In d (dependencies m) -> dependency_unmet goal d = false).
    { intros d Hin. destruct (Hd d Hin) as [dep [E Hc]].
      unfold dependency_unmet. now rewrite E, Hc. }
    rewrite (@put_milestone_accepts now milestoneId goal m F C Hu). cbn [fst].
    set (g' := updateProgress now _).
    assert (Hms : milestones g'
                  = update_id (mark_completed now) milestoneId (milestones goal)).
    { unfold g'. now rewrite updateProgress_milestones. }
    intros x d Hx Hc Hin.
    apply (@dependency_unmet_after_completion now milestoneId d goal g' Hms).
    rewrite Hms in Hx. apply update_id_In in Hx as [Hx | [m0 [F0 ->]]].
    + now apply (Hcl x d).
    + rewrite F in F0. injection F0 as <-. now apply Hu.
  - now rewrite (proj1 (put_milestone_failure_inv now milestoneId goal S)).
Qed.

Lemma put_milestone_keeps_dependency_closed_witness :
  dependency_closed (fst (put_milestone 4 "B" (chain_goal true false false))).
Proof.
  apply (@put_milestone_keeps_dependency_closed 4 "B" (chain_goal true false false)).
  intros m d [<- | [<- | [<- | []]]]; simpl; try discriminate.
  intros _ [].
Defined.

Lemma stuck_unmet (ids : list string) (g : Goal) (d : string) :
  stuck ids g -> In d ids -> dependency_unmet g d = true.
Proof.
  intros Hs Hd. unfold dependency_unmet.
  destruct (milestones_id (milestones g) d) as [m |] eqn:F; [| reflexivity].
  apply milestones_id_In in F as [Hin <-].
  destruct (Hs m Hin Hd) as [-> _]. reflexivity.
Qed.

Lemma put_milestone_keeps_stuck (ids : list string) (now : Z)
    (milestoneId : string) (g : Goal) :
  stuck ids g -> stuck ids (fst (put_milestone now milestoneId g)).
Proof.
  intros Hs.
  destruct (success (snd (put_milestone now milestoneId g))) eqn:S.
  - apply put_milestone_success_inv in S as [m [F [C Hd]]].
    assert (Hu : forall d, In d (dependencies m) -> dependency_unmet g d = false).
    { intros d Hin. destruct (Hd d Hin) as [dep [E Hc]].
      unfold dependency_unmet. now rewrite E, Hc. }
    destruct (milestones_id_In _ _ F) as [Hm Hid].
    assert (Hnot : ~ In milestoneId ids).
    { intros Hin. rewrite <- Hid in Hin.
      destruct (Hs m Hm Hin) as [_ [d [Hd1 Hd2]]].
      pose proof (@stuck_unmet ids g d Hs Hd2) as H. rewrite (Hu d Hd1) in H. discriminate. }
    rewrite (@put_milestone_accepts now milestoneId g m F C Hu). cbn [fst].
    intros x Hx Hxi. rewrite updateProgress_milestones in Hx.
    unfold set_milestones in Hx. cbn [milestones] in Hx.
    apply update_id_In in Hx as [Hx | [m0 [F0 ->]]].
    + now apply Hs.
    + exfalso. apply Hnot. rewrite F in F0. injection F0 as <-.
      cbn in Hxi. now rewrite <- Hid.
  - now rewrite (proj1 (put_milestone_failure_inv now milestoneId g S)).
Qed.

(** X10. Milestones that wait for one another are never completed by the
    route: if the milestones named by a set of ids are all open and each
    depends on an id of the set (a dependency cycle, or a dependency on
    itself), then after any sequence of completion requests all of them are
    still open. *)
Theorem stuck_milestones_stay_open (ids : list string)
    (calls : list (Z * string)) (g : Goal) :
  stuck ids g ->
  forall m, In m (milestones (put_milestone_calls calls g)) ->
            In (_id m) ids -> isCompleted m = false.
Proof.
  intros Hs.
  assert (H : stuck ids (put_milestone_calls calls g)).
  { revert g Hs. induction calls as [| c cs IH]; intros g Hs; [exact Hs |].
    apply IH. now apply put_milestone_keeps_stuck. }
  intros m Hm Hi. now destruct (H m Hm Hi).
Qed.

Lemma stuck_milestones_stay_open_witness :
  isCompleted (set_dependencies ["B"] (chain_milestone "A" [] false)) = false.
Proof.
  apply (@stuck_milestones_stay_open ["A"; "B"]
           [(1%Z, "A"); (2%Z, "B"); (3%Z, "A"); (4%Z, "C")]
           (fst (put_dependencies "A" ["B"] (chain_goal false false false)))).
  - intros m [<- | [<- | [<- | []]]]; simpl.
    + intros _. split; [reflexivity |]. exists "B". auto.
    + intros _. split; [reflexivity |]. exists "A". auto.
    + intros [H | [H | []]]; discriminate H.
  - vm_compute. left. reflexivity.
  - simpl. auto.
Defined.





Lemma update_id_twice (f h : Milestone -> Milestone) (i : string)
    (ms : list Milestone) :
  (forall x, _id (f x) = _id x) ->
  update_id h i (update_id f i ms) = update_id (fun x => h (f x)) i ms.
Proof.
  intros Hf. induction ms as [| m ms IH]; simpl; [reflexivity |].
  destruct (String.eqb (_id m) i) eqn:E; simpl.
  - now rewrite Hf, E.
  - now rewrite E, IH.
Qed.

Lemma validDependencies_same_ids (g g' : Goal) (i : string) (deps : list string) :
  map _id (milestones g') = map _id (milestones g) ->
  validDependencies g' i deps = validDependencies g i deps.
Proof.
  intros H. unfold validDependencies. apply filter_ext. intros d.
  destruct (milestones_id (milestones g') d) eqn:F';
    destruct (milestones_id (milestones g) d) eqn:F; try reflexivity; exfalso.
  - apply milestones_id_None in F. rewrite <- H in F.
    apply milestones_id_None in F. congruence.
  - apply milestones_id_None in F'. rewrite H in F'.
    apply milestones_id_None in F'. congruence.
Qed.

(** X12. The dependencies route replaces: two requests for the same
    milestone leave the goal that the second request alone would leave. *)
Theorem put_dependencies_replaces (milestoneId : string)
    (first second : list string) (goal : Goal) :
  fst (put_dependencies milestoneId second
         (fst (put_dependencies milestoneId first goal)))
  = fst (put_dependencies milestoneId second goal).
Proof.
  destruct (milestones_id (milestones goal) milestoneId) as [m |] eqn:F.
  - assert (H1 : fst (put_dependencies milestoneId first goal)
                 = set_milestones
                     (update_id
                        (set_dependencies
                           (validDependencies goal milestoneId first))
                        milestoneId (milestones goal)) goal).
    { unfold put_dependencies. now rewrite F. }
    rewrite H1. unfold put_dependencies.
    unfold set_milestones at 1 2 3. cbn [milestones].
    rewrite milestones_id_update_same by reflexivity.
    rewrite F. cbn [option_map fst].
    unfold set_milestones.
    cbn [milestones status progress completedMilestones
           actualDuration_completedAt].
    f_equal. rewrite update_id_twice by reflexivity.
    match goal with
    | |- context [validDependencies ?g' milestoneId second] =>
        rewrite (@validDependencies_same_ids goal g' milestoneId second)
          by (cbn [milestones]; now apply update_id_ids)
    end.
    reflexivity.
  - unfold put_dependencies. rewrite F. cbn [fst]. now rewrite F.
Qed.

End GoalRoutesMoreFacts.

(** ** The goal details page: toggling and editing *)

Module GoalDetailsPageMoreFacts.

Import Number NumberFacts GoalDetailsPage PageScenarios GoalDetailsPageFacts.
Local Open Scope string_scope.

Lemma set_nth_length (index : nat) (f : Milestone -> Milestone) (l : list Milestone) :
  List.length (set_nth index f l) = List.length l.
Proof.
  revert index. induction l as [| m l IH]; intros [| i]; simpl; auto.
Qed.

Lemma set_nth_same (index : nat) (f : Milestone -> Milestone) (l : list Milestone) :
  nth_error (set_nth index f l) index = option_map f (nth_error l index).
Proof.
  revert index. induction l as [| m l IH]; intros [| i]; simpl; auto.
Qed.

Lemma set_nth_other (index k : nat) (f : Milestone -> Milestone) (l : list Milestone) :
  k <> index -> nth_error (set_nth index f l) k = nth_error l k.
Proof.
  revert index k. induction l as [| m l IH]; intros [| i] [| k] H; simpl;
    try reflexivity; try congruence.
  apply IH. congruence.
Qed.

Lemma set_nth_map {B : Type} (g : Milestone -> B) (index : nat)
    (f : Milestone -> Milestone) (l : list Milestone) :
  (forall m, g (f m) = g m) -> map g (set_nth index f l) = map g l.
Proof.
  intros H. revert index. induction l as [| m l IH]; intros [| i]; simpl;
    try reflexivity; [now rewrite H | now rewrite IH].
Qed.

Lemma set_nth_twice (index : nat) (l : list Milestone) :
  set_nth index toggle (set_nth index toggle l) = l.
Proof.
  revert index. induction l as [| m l IH]; intros [| i]; simpl; try reflexivity.
  - destruct m as [i0 t c d o]. unfold toggle. cbn. now rewrite negb_involutive.
  - now rewrite IH.
Qed.

(** X13. [toggleMilestone] either is refused (an open, blocked
    milestone: only the alert is raised and the page is unchanged) or flips
    the completion flag of the milestone at the index and nothing else in
    the list; a progress entry is emitted exactly when the milestone becomes
    completed, and reopening a completed milestone is never refused. *)
Theorem toggleMilestone_effect (index : nat) (page page' : Page)
    (effects : list Effect) :
  toggleMilestone index page = Some (page', effects) ->
  exists m,
    nth_error (milestoneList page) index = Some m
    /\ map id (milestoneList page') = map id (milestoneList page)
    /\ map dependencies (milestoneList page')
       = map dependencies (milestoneList page)
    /\ (forall k, k <> index ->
          nth_error (milestoneList page') k = nth_error (milestoneList page) k)
    /\ ((page' = page
         /\ effects
            = [alert "Cannot complete this milestone. Please complete its dependencies first."]
         /\ isCompleted m = false
         /\ isMilestoneBlocked (milestoneList page) m = true)
        \/ (nth_error (milestoneList page') index = Some (toggle m)
            /\ effects
               = (if isCompleted m then []
                  else [addProgressEntry (id m)
                          ("Completed milestone: " ++ title m)])
            /\ (isCompleted m = true
                \/ isMilestoneBlocked (milestoneList page) m = false))).
Proof.
  unfold toggleMilestone.
  destruct (nth_error (milestoneList page) index) as [m |] eqn:N; [| discriminate].
  assert (Hshape :
    forall l : list Milestone,
      l = set_nth index toggle (milestoneList page) ->
      map id l = map id (milestoneList page)
      /\ map dependencies l = map dependencies (milestoneList page)
      /\ (forall k, k <> index -> nth_error l k = nth_error (milestoneList page) k)
      /\ nth_error l index = Some (toggle m)).
  { intros l ->. split; [| split; [| split]].
    - now apply set_nth_map.
    - now apply set_nth_map.
    - intros k Hk. now apply set_nth_other.
    - now rewrite set_nth_same, N. }
  destruct (isCompleted m) eqn:C; cbn [negb andb].
  - intros H. injection H as <- <-. cbn [milestoneList].
    destruct (Hshape _ eq_refl) as [H1 [H2 [H3 H4]]].
    exists m. split; [reflexivity |].
    split; [exact H1 | split; [exact H2 | split; [exact H3 |]]].
    right. split; [exact H4 | split; [now rewrite C | now left]].
  - destruct (isMilestoneBlocked (milestoneList page) m) eqn:B.
    + intros H. injection H as <- <-. exists m. split; [reflexivity |].
      split; [reflexivity | split; [reflexivity | split; [reflexivity |]]].
      left. auto.
    + intros H. injection H as <- <-. cbn [milestoneList].
      destruct (Hshape _ eq_refl) as [H1 [H2 [H3 H4]]].
      exists m. split; [reflexivity |].
      split; [exact H1 | split; [exact H2 | split; [exact H3 |]]].
      right. split; [exact H4 | split; [now rewrite C | now right]].
Qed.

Lemma toggleMilestone_effect_witness :
  exists m,
    nth_error (milestoneList orphan_page) 0 = Some m
    /\ map id (milestoneList toggled_orphan_page)
       = map id (milestoneList orphan_page).
Proof.
  destruct (@toggleMilestone_effect 0 orphan_page toggled_orphan_page
              [addProgressEntry "m1" "Completed milestone: Write tests"]
              eq_refl)
    as [m [H1 [H2 _]]].
  exists m. split; assumption.
Defined.

Lemma list_progress_nonempty {A : Type} (l : list Milestone) (fallback : A)
    (k : Z -> A) :
  l <> [] ->
  list_progress l fallback k
  = k (percentage (List.length (filter isCompleted l)) (List.length l)).
Proof. intros H. destruct l; [congruence | reflexivity]. Qed.

Lemma persistMilestones_In (goalId : string) (updated : list Milestone)
    (stored : list StoredGoal) (sg' : StoredGoal) :
  In sg' (persistMilestones goalId updated stored) ->
  key sg' = goalId ->
  stored_milestones sg' = JArr (map to_json updated)
  /\ exists sg, In sg stored
                /\ stored_progress sg'
                   = list_progress updated
                       (js_or (stored_progress sg) (JNum 0))
                       (fun p => JNum (inject_Z p)).
Proof.
  unfold persistMilestones. intros H Hk. apply in_map_iff in H as [sg [E Hin]].
  destruct (String.eqb_spec (key sg) goalId) as [Ek | NE]; cbn in E.
  - subst sg'. cbn. split; [reflexivity | eauto].
  - subst sg'. contradiction.
Qed.

(** X14. After a toggle that is not refused, the progress shown on the
    page and the progress stored for the goal are the same number, the
    stored milestones are the list on the page, the completed count is at
    most the milestone count and the progress lies between 0 and 100. *)
Theorem toggleMilestone_progress_agrees (index : nat) (page page' : Page)
    (effects : list Effect) (g' : Goal) (sg' : StoredGoal) :
  toggleMilestone index page = Some (page', effects) ->
  (forall text, ~ In (alert text) effects) ->
  goal page' = Some g' ->
  In sg' (storage page') -> key sg' = goalId page' ->
  stored_progress sg' = JNum (progress g')
  /\ stored_milestones sg' = JArr (map to_json (milestoneList page'))
  /\ milestones g' = of_nat (List.length (milestoneList page'))
  /\ (completedMilestones g' <= milestones g')%Q
  /\ (0 <= progress g' <= 100)%Q.
Proof.
  unfold toggleMilestone.
  destruct (nth_error (milestoneList page) index) as [m |] eqn:N; [| discriminate].
  destruct (_ && _).
  - intros H Ha. injection H as _ <-. exfalso. eapply Ha. now left.
  - intros H _. injection H as <- _.
    cbn [goal storage goalId milestoneList].
    set (updated := set_nth index toggle (milestoneList page)).
    assert (Hne : updated <> []).
    { intros E. apply (f_equal (@List.length _)) in E. unfold updated in E.
      rewrite set_nth_length in E.
      assert (index < List.length (milestoneList page))%nat
        by (apply nth_error_Some; congruence).
      simpl in E. lia. }
    destruct (goal page) as [g |]; [| discriminate].
    cbn [option_map]. intros Hg Hin Hk. injection Hg as <-.
    cbn [progress milestones completedMilestones].
    apply persistMilestones_In in Hin as [Hm [sg [_ Hp]]]; [| exact Hk].
    rewrite !list_progress_nonempty in * by exact Hne.
    pose proof (@GoalModelFacts.filter_length_le _ isCompleted updated) as Hle.
    pose proof (percentage_range Hle) as [Hlo Hhi].
    split; [exact Hp | split; [exact Hm | split; [reflexivity | split]]].
    + now apply of_nat_le.
    + rewrite (Zle_Qle 0), (Zle_Qle _ 100) in *. split; assumption.
Qed.

Lemma toggleMilestone_progress_agrees_witness :
  stored_progress (hd planning_record (storage toggled_orphan_page))
  = JNum (inject_Z 100).
Proof.
  apply (@toggleMilestone_progress_agrees 0 orphan_page toggled_orphan_page
           [addProgressEntry "m1" "Completed milestone: Write tests"]
           {| goal_title := JStr "Testing";
              description := JStr "";
              progress := inject_Z 100;
              status := JStr "active";
              milestones := of_nat 1;
              completedMilestones := of_nat 1 |}
           (hd planning_record (storage toggled_orphan_page))).
  - vm_compute. reflexivity.
  - intros text [H | []]. discriminate H.
  - vm_compute. reflexivity.
  - vm_compute. left. reflexivity.
  - vm_compute. reflexivity.
Defined.

Lemma isMilestoneBlocked_completed (l : list Milestone) (m : Milestone) :
  isCompleted m = true -> isMilestoneBlocked l m = false.
Proof. intros H. unfold isMilestoneBlocked. now rewrite H. Qed.

(** X15. Completing an unblocked milestone and toggling it again restores
    the milestone list: the first toggle emits one progress entry, the
    second is accepted and emits nothing. *)
Theorem toggleMilestone_twice (index : nat) (page : Page) (m : Milestone) :
  nth_error (milestoneList page) index = Some m ->
  isCompleted m = false ->
  isMilestoneBlocked (milestoneList page) m = false ->
  exists page1 page2,
    toggleMilestone index page
    = Some (page1,
            [addProgressEntry (id m) ("Completed milestone: " ++ title m)])
    /\ toggleMilestone index page1 = Some (page2, [])
    /\ milestoneList page2 = milestoneList page.
Proof.
  intros N C B. unfold toggleMilestone at 1. rewrite N, C, B. cbn [negb andb].
  eexists. eexists. split; [reflexivity |].
  unfold toggleMilestone. cbn [milestoneList].
  rewrite set_nth_same, N. cbn [option_map toggle isCompleted].
  rewrite C. cbn [negb andb]. split; [reflexivity |].
  cbn [milestoneList]. apply set_nth_twice.
Qed.

Lemma toggleMilestone_twice_witness :
  exists page1 page2,
    toggleMilestone 0 orphan_page
    = Some (page1, [addProgressEntry "m1" "Completed milestone: Write tests"])
    /\ toggleMilestone 0 page1 = Some (page2, [])
    /\ milestoneList page2 = milestoneList orphan_page.
Proof.
  apply (@toggleMilestone_twice 0 orphan_page orphan); reflexivity.
Defined.

Lemma persistMilestones_untouched (goalId : string)
    (updated : list Milestone) (stored : list StoredGoal) :
  map key (persistMilestones goalId updated stored) = map key stored
  /\ (forall k sg, nth_error stored k = Some sg -> key sg <> goalId ->
        nth_error (persistMilestones goalId updated stored) k = Some sg)
  /\ ((forall sg, In sg stored -> key sg <> goalId) ->
      persistMilestones goalId updated stored = stored).
Proof.
  unfold persistMilestones. split; [| split].
  - rewrite map_map. apply map_ext. intros sg.
    destruct (negb _); reflexivity.
  - intros k sg Hk Hne. rewrite nth_error_map, Hk. cbn.
    destruct (String.eqb_spec (key sg) goalId); [contradiction | reflexivity].
  - intros H. rewrite <- (map_id stored) at 2. apply map_ext_in.
    intros sg Hin. destruct (String.eqb_spec (key sg) goalId) as [E | _];
      [| reflexivity].
    now destruct (H sg Hin).
Qed.

(** X16. [persistMilestones] keeps the stored goals in place: keys and
    positions are unchanged, every goal with another key is stored back as
    it was, and nothing changes when no stored goal has the key. *)
Theorem persistMilestones_other_goals (goalId : string)
    (updated : list Milestone) (stored : list StoredGoal) :
  map key (persistMilestones goalId updated stored) = map key stored
  /\ (forall k sg, nth_error stored k = Some sg -> key sg <> goalId ->
        nth_error (persistMilestones goalId updated stored) k = Some sg)
  /\ ((forall sg, In sg stored -> key sg <> goalId) ->
      persistMilestones goalId updated stored = stored).
Proof. apply persistMilestones_untouched. Qed.

Lemma persistMilestones_other_goals_witness :
  persistMilestones "g1" [orphan] [planning_record] = [planning_record].
Proof.
  apply (@persistMilestones_other_goals "g1" [orphan] [planning_record]).
  intros sg [<- | []]. discriminate.
Defined.

(** X17. The last [persistMilestones] wins: writing a non-empty list
    after another write leaves what writing it alone would leave. *)
Theorem persistMilestones_last_write (goalId : string)
    (first second : list Milestone) (stored : list StoredGoal) :
  second <> [] ->
  persistMilestones goalId second (persistMilestones goalId first stored)
  = persistMilestones goalId second stored.
Proof.
  intros Hne. unfold persistMilestones. rewrite map_map. apply map_ext.
  intros sg. destruct (String.eqb (key sg) goalId) eqn:E; cbn [negb].
  - cbn [key]. rewrite E. cbn [negb stored_title stored_description
                                  stored_completedMilestones stored_status
                                  stored_progress].
    now rewrite !list_progress_nonempty by exact Hne.
  - now rewrite E.
Qed.

Lemma persistMilestones_last_write_witness :
  persistMilestones "g1" [orphan]
    (persistMilestones "g1" [orphan; toggle orphan] (storage orphan_page))
  = persistMilestones "g1" [orphan] (storage orphan_page).
Proof.
  apply (@persistMilestones_last_write "g1" [orphan; toggle orphan] [orphan]
           (storage orphan_page)).
  discriminate.
Defined.

(** X18. [deleteGoal] writes back exactly the stored goals with another
    key; on the result a later [persistMilestones] for the deleted goal, or
    a second deletion, changes nothing. *)
Theorem deleteGoal_removes (page : Page) (updated : list Milestone) :
  (forall sg, In sg (deleteGoal page)
              <-> In sg (storage page) /\ key sg <> goalId page)
  /\ persistMilestones (goalId page) updated (deleteGoal page) = deleteGoal page
  /\ filter (fun g => negb (String.eqb (key g) (goalId page))) (deleteGoal page)
     = deleteGoal page.
Proof.
  assert (H : forall sg, In sg (deleteGoal page)
                         <-> In sg (storage page) /\ key sg <> goalId page).
  { intros sg. unfold deleteGoal. rewrite filter_In, negb_true_iff.
    destruct (String.eqb_spec (key sg) (goalId page)); intuition congruence. }
  split; [exact H | split].
  - apply persistMilestones_untouched. intros sg Hin. now apply H.
  - apply forallb_filter_id. apply forallb_forall. intros sg Hin.
    apply H in Hin as [_ Hk]. now destruct (String.eqb_spec (key sg) (goalId page)).
Qed.

Lemma filter_app_single (d : string) (deps : list string) :
  ~ In d deps ->
  filter (fun dep => negb (String.eqb dep d)) (deps ++ [d]) = deps.
Proof.
  intros H. rewrite filter_app. cbn. rewrite String.eqb_refl. cbn.
  rewrite app_nil_r. apply forallb_filter_id. apply forallb_forall.
  intros x Hx. destruct (String.eqb_spec x d); [subst; contradiction | reflexivity].
Qed.

(** X19. Removing a dependency that was just added restores the
    milestone list, provided the milestone did not have it before. *)
Theorem removeDependency_after_addDependency (milestoneId dependencyId : string)
    (page : Page) :
  (forall m, In m (milestoneList page) -> id m = milestoneId ->
             ~ In dependencyId (dependencies m)) ->
  milestoneList (removeDependency milestoneId dependencyId
                   (addDependency milestoneId dependencyId page))
  = milestoneList page.
Proof.
  intros H. unfold removeDependency, addDependency. cbn [milestoneList].
  rewrite map_map. rewrite <- (map_id (milestoneList page)) at 2.
  apply map_ext_in. intros m Hm.
  destruct (String.eqb_spec (id m) milestoneId) as [E | NE].
  - cbn [id]. destruct (String.eqb_spec (id m) milestoneId); [| contradiction].
    cbn [id title isCompleted dependencies order].
    rewrite filter_app_single by now apply H.
    now destruct m.
  - destruct (String.eqb_spec (id m) milestoneId); [contradiction | reflexivity].
Qed.

Lemma removeDependency_after_addDependency_witness :
  milestoneList (removeDependency "m1" "m2" (addDependency "m1" "m2" orphan_page))
  = milestoneList orphan_page.
Proof.
  apply (@removeDependency_after_addDependency "m1" "m2" orphan_page).
  intros m [<- | []] _ [H | []]. discriminate H.
Defined.

Lemma find_map_id (f : Milestone -> Milestone) (d : string) (l : list Milestone) :
  (forall x, id (f x) = id x) ->
  find (fun x => String.eqb (id x) d) (map f l)
  = option_map f (find (fun x => String.eqb (id x) d) l).
Proof.
  intros Hf. induction l as [| x l IH]; simpl; [reflexivity |].
  rewrite Hf. destruct (String.eqb (id x) d); [reflexivity | exact IH].
Qed.

(** X20. A dependency added on an open milestone blocks: after
    [addDependency] with the id of an open milestone (the milestone itself
    included), toggling the open dependent milestone is refused with the
    alert and changes nothing. *)
Theorem addDependency_blocks (index : nat) (page : Page) (m dep : Milestone)
    (dependencyId : string) :
  nth_error (milestoneList page) index = Some m ->
  isCompleted m = false ->
  find (fun x => String.eqb (id x) dependencyId) (milestoneList page) = Some dep ->
  isCompleted dep = false ->
  toggleMilestone index (addDependency (id m) dependencyId page)
  = Some (addDependency (id m) dependencyId page,
          [alert "Cannot complete this milestone. Please complete its dependencies first."]).
Proof.
  intros N C F Cd.
  set (upd := fun x : Milestone =>
         if String.eqb (id x) (id m)
         then {| id := id x; title := title x; isCompleted := isCompleted x;
                 dependencies := dependencies x ++ [dependencyId];
                 order := order x |}
         else x).
  assert (Hid : forall x, id (upd x) = id x).
  { intros x. unfold upd. destruct (String.eqb (id x) (id m)); reflexivity. }
  assert (Hc : forall x, isCompleted (upd x) = isCompleted x).
  { intros x. unfold upd. destruct (String.eqb (id x) (id m)); reflexivity. }
  assert (Hl : milestoneList (addDependency (id m) dependencyId page)
               = map upd (milestoneList page)) by reflexivity.
  unfold toggleMilestone. rewrite Hl, nth_error_map, N. cbn [option_map].
  rewrite Hc, C. cbn [negb andb].
  assert (B : isMilestoneBlocked (map upd (milestoneList page)) (upd m) = true).
  { unfold isMilestoneBlocked. rewrite Hc, C.
    unfold upd at 2. rewrite String.eqb_refl. cbn [dependencies].
    rewrite existsb_app. apply orb_true_iff. right. cbn [existsb].
    rewrite find_map_id by exact Hid. rewrite F. cbn [option_map].
    now rewrite Hc, Cd. }
  now rewrite B.
Qed.

Lemma addDependency_blocks_witness :
  toggleMilestone 0 (addDependency "m1" "m1" orphan_page)
  = Some (addDependency "m1" "m1" orphan_page,
          [alert "Cannot complete this milestone. Please complete its dependencies first."]).
Proof.
  apply (@addDependency_blocks 0 orphan_page orphan orphan "m1"); reflexivity.
Defined.

(** X21. For a stored goal whose milestones are an array, the normalised
    goal counts its elements, and its completed count is between 0 and that
    number. *)
Theorem normalize_counts (g : StoredGoal) (items : list jsval) :
  stored_milestones g = JArr items ->
  milestones (normalize g) = of_nat (List.length items)
  /\ (0 <= completedMilestones (normalize g) <= milestones (normalize g))%Q.
Proof.
  intros H. unfold normalize. rewrite H. cbn [milestones completedMilestones].
  split; [reflexivity | split].
  - apply of_nat_nonneg.
  - apply of_nat_le. apply GoalModelFacts.filter_length_le.
Qed.

Lemma normalize_counts_witness :
  milestones (normalize (hd planning_record (storage orphan_page))) = of_nat 1.
Proof.
  apply (@normalize_counts (hd planning_record (storage orphan_page))
           [to_json orphan]).
  reflexivity.
Defined.

End GoalDetailsPageMoreFacts.

(** ** The static milestone plan: shape of the result *)

Module BreakdownFacts.

Import Number NumberFacts NumberExactFacts Breakdown.
Local Open Scope string_scope.

Lemma forEach_from_length {A B : Type} (f : nat -> A -> B) (i : nat) (l : list A) :
  List.length (forEach_from f i l) = List.length l.
Proof. revert i. induction l as [| a l IH]; intros i; simpl; auto. Qed.

Lemma forEach_from_nth {A B : Type} (f : nat -> A -> B) (i k : nat) (l : list A) :
  nth_error (forEach_from f i l) k = option_map (f (i + k)%nat) (nth_error l k).
Proof.
  revert i k. induction l as [| a l IH]; intros i [| k]; simpl; try reflexivity.
  - now rewrite Nat.add_0_r.
  - rewrite IH. now rewrite Nat.add_succ_r.
Qed.

Lemma plan_duration (count : nat) (index : nat) (skill : string) :
  estimatedDuration (plan_for count index skill)
  = Z.max 8 (168 / Z.max 1 (Z.of_nat count)).
Proof. cbn [estimatedDuration plan_for]. rewrite floor_168_div by lia. reflexivity. Qed.

Lemma half_lt (index count : nat) :
  (of_nat index < of_nat count / 2)%Q <-> (2 * index < count)%nat.
Proof.
  unfold of_nat.
  assert (E : (inject_Z (Z.of_nat (2 * index)) == 2 * inject_Z (Z.of_nat index))%Q).
  { rewrite Nat2Z.inj_mul, inject_Z_mult. reflexivity. }
  assert (Hh : (inject_Z (Z.of_nat count) / 2
                == inject_Z (Z.of_nat count) * (1 # 2))%Q) by reflexivity.
  rewrite Hh.
  split; intros H.
  - assert (H' : (inject_Z (Z.of_nat (2 * index)) < inject_Z (Z.of_nat count))%Q)
      by lra.
    rewrite <- Zlt_Qlt in H'. lia.
  - assert (H' : (Z.of_nat (2 * index) < Z.of_nat count)%Z) by lia.
    rewrite Zlt_Qlt in H'. lra.
Qed.

Lemma plan_type (count index : nat) (skill : string) :
  (Z.of_nat count < 2 ^ 53)%Z ->
  type (plan_for count index skill)
  = if (2 * index <? count)%nat then theory else practice.
Proof.
  intros Hc. cbn [type plan_for].
  pose proof (div_2_exact count Hc) as Hd.
  pose proof (half_lt index count) as Hi.
  destruct (Qlt_le_dec (of_nat index) (div (of_nat count) 2)) as [L | L];
    destruct (Nat.ltb_spec (2 * index) count) as [L' | L']; try reflexivity;
    exfalso.
  - rewrite Hd in L. apply Hi in L. lia.
  - apply Hi in L'. rewrite <- Hd in L'. lra.
Qed.

Lemma plans_order (count i : nat) (l : list string) :
  map order (forEach_from (plan_for count) i l) = seq i (List.length l).
Proof.
  revert i. induction l as [| s l IH]; intros i; simpl;
    [reflexivity | now rewrite IH].
Qed.

Lemma plans_title (count i : nat) (l : list string) :
  map title (forEach_from (plan_for count) i l)
  = map (fun skill => "Learn " ++ skill) l.
Proof.
  revert i. induction l as [| s l IH]; intros i; simpl;
    [reflexivity | now rewrite IH].
Qed.

(** X22. The static plan has one milestone per skill, in the order of
    the skills, titled "Learn <skill>" and numbered from 0; every milestone
    gets the same duration, the larger of 8 and the integer quotient of 168
    by the number of skills, which lies between 8 and 168 hours. *)
Theorem generateMilestonesFromBreakdown_shape (skills : list string) :
  List.length (generateMilestonesFromBreakdown skills) = List.length skills
  /\ map order (generateMilestonesFromBreakdown skills)
     = seq 0 (List.length skills)
  /\ map title (generateMilestonesFromBreakdown skills)
     = map (fun skill => "Learn " ++ skill) skills
  /\ (forall p, In p (generateMilestonesFromBreakdown skills) ->
        estimatedDuration p
        = Z.max 8 (168 / Z.max 1 (Z.of_nat (List.length skills)))
        /\ (8 <= estimatedDuration p <= 168)%Z).
Proof.
  unfold generateMilestonesFromBreakdown. split; [| split; [| split]].
  - apply forEach_from_length.
  - apply plans_order.
  - apply plans_title.
  - intros p Hp. apply In_nth_error in Hp as [k Hk].
    rewrite forEach_from_nth in Hk.
    destruct (nth_error skills k) as [skill |]; [| discriminate].
    cbn in Hk. injection Hk as <-. rewrite plan_duration.
    split; [reflexivity |].
    assert (H : (0 <= 168 / Z.max 1 (Z.of_nat (List.length skills)) <= 168)%Z).
    { split; [apply Z.div_pos; lia |].
      apply Z.div_le_upper_bound; lia. }
    set (q := (168 / Z.max 1 (Z.of_nat (List.length skills)))%Z) in *. lia.
Qed.

(** X23. In the static plan the milestone at position [k] has order [k]
    and is of type theory when [2 * k] is below the number of skills, and
    of type practice otherwise. *)
Theorem generateMilestonesFromBreakdown_types (skills : list string) (k : nat)
    (p : Plan) :
  (Z.of_nat (List.length skills) < 2 ^ 32)%Z ->
  nth_error (generateMilestonesFromBreakdown skills) k = Some p ->
  order p = k
  /\ type p = if (2 * k <? List.length skills)%nat then theory else practice.
Proof.
  intros Hlen Hk. unfold generateMilestonesFromBreakdown in Hk.
  rewrite forEach_from_nth in Hk.
  destruct (nth_error skills k) as [skill |]; [| discriminate].
  cbn [option_map Nat.add] in Hk. injection Hk as <-.
  split; [reflexivity |]. apply plan_type. lia.
Qed.

Lemma generateMilestonesFromBreakdown_types_witness :
  type (plan_for 3 1 "React") = theory /\ type (plan_for 3 2 "Node.js") = practice.
Proof.
  split.
  - apply (@generateMilestonesFromBreakdown_types
             ["HTML"; "React"; "Node.js"] 1 (plan_for 3 1 "React")).
    + vm_compute. reflexivity.
    + reflexivity.
  - apply (@generateMilestonesFromBreakdown_types
             ["HTML"; "React"; "Node.js"] 2 (plan_for 3 2 "Node.js")).
    + vm_compute. reflexivity.
    + reflexivity.
Defined.

End BreakdownFacts.
